(** * ephemeris: shed_tools_methods

    A shallow embedding of [src/ephemeris/shed_tools_methods.py] and the
    properties of its four entry points: [complete_repo_information],
    [get_changeset_revisions], [flatten_repo_info] and
    [verify_tool_keep_history] (plus the helper [format_tool_shed_url]).

    Python dictionaries are objects: they live in a heap and are passed by
    reference, so a function that assigns into a dictionary it was given is
    seen by its caller.  Calls to the outside world (the tool-shed catalog,
    the Galaxy interactor, the verification library, the job-data callback)
    are answered by an environment and written to a trace. *)

From Stdlib Require Import Floats.
From stdpp Require Import gmap strings list fin_maps.

Local Open Scope string_scope.
Local Open Scope Z_scope.
Set Warnings "-register-all".

(** ** Python values *)

(** The values stored in repository and test dictionaries.  Values are
    immutable here; the mutable objects of the module are the dictionaries
    themselves, which are kept in the heap below. *)
Inductive value :=
| VNone
| VBool (b : bool)
| VInt (z : Z)
| VFloat (f : float)
| VStr (s : string)
| VList (l : list value).

Abbreviation dict := (gmap string value).

(** [bool(v)]: the truth value Python gives to [v] in [if v], [not v],
    [a or b]. *)
Definition truthy (v : value) : bool :=
  match v with
  | VNone => false
  | VBool b => b
  | VInt z => negb (z =? 0)
  | VFloat f => negb (PrimFloat.eqb f 0%float)
  | VStr s => negb (String.eqb s "")
  | VList l => match l with [] => false | _ :: _ => true end
  end.

Definition is_None (v : value) : bool :=
  match v with VNone => true | _ => false end.

(** [d.get(k)]: the value under [k], [None] when the key is absent. *)
Definition dict_get (d : dict) (k : string) : value := default VNone (d !! k).

(** [d.get(k, dflt)]. *)
Definition dict_get_default (d : dict) (k : string) (dflt : value) : value :=
  default dflt (d !! k).

(** ** Strings

    A string is the sequence of the bytes of its UTF-8 text.  The tests
    below look for ASCII text only, for which a match on the bytes is a
    match on the characters. *)

(** [s.startswith(p)]. *)
Definition startswith (s p : string) : bool := String.prefix p s.

(** [s.endswith(suf)]: some tail of [s] is [suf]. *)
Fixpoint endswith (s suf : string) : bool :=
  String.eqb s suf ||
  match s with
  | EmptyString => false
  | String _ s' => endswith s' suf
  end.

(** [needle in s] for two strings: [needle] starts at some position of [s]. *)
Fixpoint contains (s needle : string) : bool :=
  String.prefix needle s ||
  match s with
  | EmptyString => false
  | String _ s' => contains s' needle
  end.

(** ** format_tool_shed_url (lines 59-65) *)

Definition format_tool_shed_url (tool_shed_url : string) : string :=
  let formatted_tool_shed_url := tool_shed_url in
  let formatted_tool_shed_url :=
    if negb (endswith formatted_tool_shed_url "/")
    then formatted_tool_shed_url ++ "/"
    else formatted_tool_shed_url in
  let formatted_tool_shed_url :=
    if negb (startswith formatted_tool_shed_url "http")
    then "https://" ++ formatted_tool_shed_url
    else formatted_tool_shed_url in
  formatted_tool_shed_url.

(** ** Exceptions *)

(** The classes of the exceptions that are raised without further data.
    [OtherException] stands for every other class derived from [Exception];
    [KeyboardInterrupt] for the classes that derive from [BaseException]
    only and that an [except Exception] clause therefore lets through.
    [NoSuchObject] is not a Python exception: it marks a read through a
    reference to no object, which a Python program cannot hold. *)
Inductive exn_class :=
| KeyError
| LookupError
| IndexError
| TypeError
| AttributeError
| AssertionError
| OtherException
| KeyboardInterrupt
| NoSuchObject.

(** The argument of an exception.  A message built with [str.format] is
    kept as its template and argument. *)
Inductive message :=
| MsgNone
| MsgKey (k : string)
| MsgText (s : string)
| MsgFormat (template : string) (arg : value)
| MsgFormatDict (template : string) (arg : dict).

(** [RunToolException] carries [inputs]; [JobOutputsError] carries
    [output_exceptions] and [job_stdio]. *)
Inductive exn :=
| Exn (c : exn_class) (m : message)
| RunToolException (m : message) (inputs : value)
| JobOutputsError (output_exceptions : list exn) (job_stdio : value).

(** [isinstance(e, Exception)]. *)
Definition is_Exception (e : exn) : bool :=
  match e with
  | Exn KeyboardInterrupt _ => false
  | _ => true
  end.

Inductive outcome (A : Type) :=
| Ret (a : A)
| Raise (e : exn).
Arguments Ret {A} a.
Arguments Raise {A} e.

Definition raised {A} (r : outcome A) : option exn :=
  match r with
  | Ret _ => None
  | Raise e => Some e
  end.

(** ** The heap, the outside world and the trace *)

Abbreviation loc := positive.

(** What this module reads of a [ToolTestDescription]. *)
Record testdef := {
  expect_failure : bool;
  test_data : value
}.

(** The response of [galaxy_interactor.run_tool]. *)
Record tool_response := {
  outputs : value;
  jobs : value;
  inputs : value;
  output_collections : value
}.

(** The [galaxy_interactor] argument of [verify_tool_keep_history]. *)
Record galaxy_interactor := {
  get_tool_tests : value → value → outcome (list loc);
  new_history : outcome value;
  run_tool : testdef → value → dict → outcome tool_response
}.

(** The imported names the module calls: bioblend's catalog query
    ([ToolShedInstance(url).repositories.get_ordered_installable_revisions]),
    the Galaxy verification library, [util.unicodify] and [time.time]
    (the n-th reading of the clock). *)
Record services := {
  get_ordered_installable_revisions : value → value → value → outcome (list value);
  ToolTestDescription : dict → outcome testdef;
  _handle_def_errors : testdef → option exn;
  stage_data_in_history : value → value → value → bool → value → option exn;
  _verify_outputs : testdef → value → value → value → value → value → bool → outcome value;
  unicodify : exn → value;
  time_time : nat → float
}.

(** One entry per call that leaves the module, with what it answered. *)
Inductive event :=
| EvCatalog (url name owner : value) (res : outcome (list value))
| EvGetToolTests (tool_id tool_version : value) (res : outcome (list loc))
| EvToolTestDescription (d : dict) (res : outcome testdef)
| EvHandleDefErrors (td : testdef) (res : option exn)
| EvNewHistory (res : outcome value)
| EvStage (tool_id history : value) (res : option exn)
| EvRunTool (td : testdef) (history : value) (res : outcome tool_response)
| EvVerifyOutputs (td : testdef) (history : value) (res : outcome value)
| EvRegister (job_data : dict) (res : option exn).

(** The exception an outside call answered with, if any. *)
Definition event_raised (ev : event) : option exn :=
  match ev with
  | EvCatalog _ _ _ r => raised r
  | EvGetToolTests _ _ r => raised r
  | EvToolTestDescription _ r => raised r
  | EvHandleDefErrors _ r => r
  | EvNewHistory r => raised r
  | EvStage _ _ r => r
  | EvRunTool _ _ r => raised r
  | EvVerifyOutputs _ _ r => raised r
  | EvRegister _ r => r
  end.

Record state := {
  heap : gmap loc dict;
  trace : list event;
  ticks : nat
}.

Definition set_heap (h : gmap loc dict) (s : state) : state :=
  {| heap := h; trace := trace s; ticks := ticks s |}.

Definition log (ev : event) (s : state) : state :=
  {| heap := heap s; trace := trace s ++ [ev]; ticks := ticks s |}.

(** ** Computations: state and exceptions *)

Definition M (S A : Type) : Type := S → outcome A * S.

Definition ret {S A} (a : A) : M S A := λ s, (Ret a, s).

Definition raise {S A} (e : exn) : M S A := λ s, (Raise e, s).

Definition bind {S A B} (m : M S A) (k : A → M S B) : M S B :=
  λ s, match m s with
       | (Ret a, s') => k a s'
       | (Raise e, s') => (Raise e, s')
       end.

Declare Scope py_scope.
Delimit Scope py_scope with py.
Notation "'let*' x := m 'in' k" := (bind m (λ x, k))
  (at level 10, x pattern, m at level 100, k at level 200,
   format "'[v' 'let*'  x  :=  m  'in' '/' k ']'") : py_scope.
Notation "m ;;; k" := (bind m (λ _, k))
  (at level 100, k at level 200, right associativity,
   format "'[v' m  ;;; '/' k ']'") : py_scope.
Local Open Scope py_scope.

(** [try: m  except <any class> as e: h e].  The state reached when [m]
    raised is the one the handler starts from. *)
Definition try_except {S A} (m : M S A) (h : exn → M S A) : M S A :=
  λ s, match m s with
       | (Ret a, s') => (Ret a, s')
       | (Raise e, s') => h e s'
       end.

(** [try: m  finally: fin].  The clause runs on the way out, however [m]
    ended; an exception raised in it replaces the pending one. *)
Definition try_finally {S A} (m : M S A) (fin : M S unit) : M S A :=
  λ s, match m s with
       | (r, s1) =>
           match fin s1 with
           | (Ret _, s2) => (r, s2)
           | (Raise e, s2) => (Raise e, s2)
           end
       end.

(** [for x in l: acc = body acc x]. *)
Fixpoint for_fold {S A B} (l : list A) (acc : B) (body : B → A → M S B) : M S B :=
  match l with
  | [] => ret acc
  | x :: l' => let* acc' := body acc x in for_fold l' acc' body
  end.

Definition from_outcome {S A} (r : outcome A) : M S A := λ s, (r, s).

(** *** Dictionaries in the heap *)

(** A new dictionary object (an empty one, or a copy of another's items),
    distinct from every object there is. *)
Definition alloc (d : dict) : M state loc :=
  λ s, let l := fresh (dom (heap s)) in
       (Ret l, set_heap (<[l := d]> (heap s)) s).

(** The dictionary a reference points to. *)
Definition load (l : loc) : M state dict :=
  λ s, match heap s !! l with
       | Some d => (Ret d, s)
       | None => (Raise (Exn NoSuchObject MsgNone), s)
       end.

(** [l[k] = v]: the object is updated in place. *)
Definition store (l : loc) (k : string) (v : value) : M state unit :=
  let* d := load l in
  λ s, (Ret tt, set_heap (<[l := <[k := v]> d]> (heap s)) s).

(** [l[k]], a [KeyError] when the key is absent. *)
Definition subscript (l : loc) (k : string) : M state value :=
  let* d := load l in
  match d !! k with
  | Some v => ret v
  | None => raise (Exn KeyError (MsgKey k))
  end.

(** [l.get(k)] and [l.get(k, dflt)]. *)
Definition get (l : loc) (k : string) : M state value :=
  let* d := load l in ret (dict_get d k).

Definition get_default (l : loc) (k : string) (dflt : value) : M state value :=
  let* d := load l in ret (dict_get_default d k dflt).

(** [l.setdefault(k, v)]. *)
Definition setdefault (l : loc) (k : string) (v : value) : M state unit :=
  let* d := load l in
  match d !! k with
  | Some _ => ret tt
  | None => store l k v
  end.

(** [xs[i]] for a Python list: a negative index counts from the end. *)
Definition py_index {A} (xs : list A) (i : Z) : option A :=
  if 0 <=? i then xs !! Z.to_nat i
  else if 0 <=? i + Z.of_nat (length xs) then xs !! Z.to_nat (i + Z.of_nat (length xs))
  else None.

(** [for x in v]: the elements a value yields, a [TypeError] for a value
    that cannot be iterated.  A string yields its characters. *)
Definition py_iter (v : value) : outcome (list value) :=
  match v with
  | VList l => Ret l
  | VStr s => Ret ((λ c, VStr (String c EmptyString)) <$> String.list_ascii_of_string s)
  | _ => Raise (Exn TypeError MsgNone)
  end.

(** [needle in v] for a string [needle]: substring search in a string,
    membership in a list, a [TypeError] otherwise. *)
Definition py_str_in (needle : string) (v : value) : outcome bool :=
  match v with
  | VStr s => Ret (contains s needle)
  | VList l => Ret (existsb (λ x, match x with VStr s => String.eqb needle s | _ => false end) l)
  | _ => Raise (Exn TypeError MsgNone)
  end.

(** ** The module *)

Definition VALID_KEYS : list string := [
  "name";
  "owner";
  "changeset_revision";
  "tool_panel_section_id";
  "tool_panel_section_label";
  "tool_shed_url";
  "install_repository_dependencies";
  "install_resolver_dependencies";
  "install_tool_dependencies"
].

(** [format_tool_shed_url] as the interpreter calls it: on a value that is
    not a string, [.endswith] is an [AttributeError]. *)
Definition format_tool_shed_url_value (tool_shed_url : value) : outcome value :=
  match tool_shed_url with
  | VStr s => Ret (VStr (format_tool_shed_url s))
  | _ => Raise (Exn AttributeError MsgNone)
  end.

Section Module.
Context (env : services).

Definition call_catalog (url name owner : value) : M state (list value) :=
  λ s, let r := get_ordered_installable_revisions env url name owner in
       (r, log (EvCatalog url name owner r) s).

(** *** get_changeset_revisions (lines 68-85) *)
Definition get_changeset_revisions (repository : loc) (force_latest_revision : bool)
  : M state loc :=
  let* changeset_revision := get repository "changeset_revision" in
  (if is_None changeset_revision || force_latest_revision then
     let* url := subscript repository "tool_shed_url" in
     let* name := subscript repository "name" in
     let* owner := subscript repository "owner" in
     let* installable_revisions := call_catalog url name owner in
     if negb (truthy (VList installable_revisions)) then
       let* d := load repository in
       raise (Exn LookupError (MsgFormatDict "Repo does not exist in tool shed: {0}" d))
     else
       match py_index installable_revisions (-1) with
       | Some latest => store repository "changeset_revision" latest
       | None => raise (Exn IndexError MsgNone)
       end
   else ret tt) ;;;
  ret repository.

(** *** complete_repo_information (lines 31-56) *)
Definition complete_repo_information
    (tool : loc)
    (default_toolshed_url : value)
    (require_tool_panel_info : bool)
    (default_install_tool_dependencies : value)
    (default_install_repository_dependencies : value)
    (default_install_resolver_dependencies : value)
    (force_latest_revision : bool) : M state loc :=
  let* repo := alloc ∅ in
  let* v := subscript tool "name" in
  store repo "name" v ;;;
  let* v := subscript tool "owner" in
  store repo "owner" v ;;;
  let* v := get tool "tool_panel_section_id" in
  store repo "tool_panel_section_id" v ;;;
  let* v := get tool "tool_panel_section_label" in
  store repo "tool_panel_section_label" v ;;;
  (if require_tool_panel_info then
     let* section_id := subscript repo "tool_panel_section_id" in
     if is_None section_id then
       let* section_label := subscript repo "tool_panel_section_label" in
       if is_None section_label then
         let* name := get repo "name" in
         let* is_data_manager := from_outcome (py_str_in "data_manager" name) in
         if negb is_data_manager then
           let* name := get repo "name" in
           raise (Exn KeyError
                    (MsgFormat "Either tool_panel_section_id or tool_panel_section_name must be defined for tool '{0}'." name))
         else ret tt
       else ret tt
     else ret tt
   else ret tt) ;;;
  let* v := get_default tool "tool_shed_url" default_toolshed_url in
  let* v := from_outcome (format_tool_shed_url_value v) in
  store repo "tool_shed_url" v ;;;
  let* v := get tool "changeset_revision" in
  store repo "changeset_revision" v ;;;
  let* repo := get_changeset_revisions repo force_latest_revision in
  let* v := get_default tool "install_repository_dependencies"
              default_install_repository_dependencies in
  store repo "install_repository_dependencies" v ;;;
  let* v := get_default tool "install_resolver_dependencies"
              default_install_resolver_dependencies in
  store repo "install_resolver_dependencies" v ;;;
  let* v := get_default tool "install_tool_dependencies"
              default_install_tool_dependencies in
  store repo "install_tool_dependencies" v ;;;
  ret repo.

(** *** flatten_repo_info (lines 88-123) *)

(** Lines 106-108: one pass over the items of [repo_info]. *)
Definition copy_valid_keys (new_repo_info : loc) (items : list (string * value))
  : M state unit :=
  for_fold items tt (λ _ item,
    let (key, value) := item in
    if bool_decide (key ∈ VALID_KEYS) then store new_repo_info key value
    else ret tt).

(** Lines 114-120: one new dictionary per revision. *)
Definition append_revisions (new_repo_info : loc) (revisions : list value)
    (flattened_list : list loc) : M state (list loc) :=
  for_fold revisions flattened_list (λ flattened_list revision,
    let* d := load new_repo_info in
    let* new_revision_dict := alloc d in
    store new_revision_dict "changeset_revision" revision ;;;
    ret (flattened_list ++ [new_revision_dict])%list).

(** Lines 105-122: the body of the loop over [repositories]. *)
Definition flatten_one (flattened_list : list loc) (repo_info : loc)
  : M state (list loc) :=
  let* new_repo_info := alloc ∅ in
  let* d := load repo_info in
  copy_valid_keys new_repo_info (map_to_list d) ;;;
  let* d := load repo_info in
  if bool_decide (is_Some (d !! "revisions")) then
    let* revisions := get_default repo_info "revisions" (VList []) in
    if negb (truthy revisions) then
      ret (flattened_list ++ [new_repo_info])%list
    else
      let* revisions := from_outcome (py_iter revisions) in
      append_revisions new_repo_info revisions flattened_list
  else
    ret (flattened_list ++ [new_repo_info])%list.

Definition flatten_repo_info (repositories : list loc) : M state (list loc) :=
  let flattened_list := [] in
  for_fold repositories flattened_list flatten_one.

(** *** verify_tool_keep_history (lines 126-215) *)

Definition call_get_tool_tests (gi : galaxy_interactor) (tool_id tool_version : value)
  : M state (list loc) :=
  λ s, let r := get_tool_tests gi tool_id tool_version in
       (r, log (EvGetToolTests tool_id tool_version r) s).

Definition call_ToolTestDescription (d : dict) : M state testdef :=
  λ s, let r := ToolTestDescription env d in
       (r, log (EvToolTestDescription d r) s).

Definition from_raised (r : option exn) : outcome unit :=
  match r with
  | None => Ret tt
  | Some e => Raise e
  end.

Definition call_handle_def_errors (td : testdef) : M state unit :=
  λ s, let r := _handle_def_errors env td in
       (from_raised r, log (EvHandleDefErrors td r) s).

Definition call_new_history (gi : galaxy_interactor) : M state value :=
  λ s, let r := new_history gi in (r, log (EvNewHistory r) s).

Definition call_stage_data_in_history (tool_id test_data history : value)
    (force_path_paste : bool) (maxseconds : value) : M state unit :=
  λ s, let r := stage_data_in_history env tool_id test_data history
                  force_path_paste maxseconds in
       (from_raised r, log (EvStage tool_id history r) s).

Definition call_run_tool (gi : galaxy_interactor) (td : testdef) (history : value)
    (resource_parameters : dict) : M state tool_response :=
  λ s, let r := run_tool gi td history resource_parameters in
       (r, log (EvRunTool td history r) s).

Definition call_verify_outputs (td : testdef) (history jobs tool_id data_list
    data_collection_list : value) (quiet : bool) : M state value :=
  λ s, let r := _verify_outputs env td history jobs tool_id data_list
                  data_collection_list quiet in
       (r, log (EvVerifyOutputs td history r) s).

Definition call_register_job_data (register_job_data : dict → option exn)
    (job_data : dict) : M state unit :=
  λ s, let r := register_job_data job_data in
       (from_raised r, log (EvRegister job_data r) s).

(** [time.time()]: the next reading of the clock. *)
Definition call_time : M state float :=
  λ s, (Ret (time_time env (ticks s)),
        {| heap := heap s; trace := trace s; ticks := S (ticks s) |}).

(** The local variables that are assigned inside the [try] statement and
    read after it or in its [finally] clause (lines 154-158, 169-170). *)
Record locals := {
  tool_inputs : value;
  job_stdio : value;
  job_output_exceptions : option (list exn);
  tool_execution_exception : option exn;
  expected_failure_occurred : bool;
  data_list : value;
  test_jobs : value;
  data_collection_list : value
}.

Definition initial_locals : locals :=
  {| tool_inputs := VNone; job_stdio := VNone; job_output_exceptions := None;
     tool_execution_exception := None; expected_failure_occurred := false;
     data_list := VNone; test_jobs := VNone; data_collection_list := VNone |}.

Definition set_tool_inputs (v : value) (l : locals) : locals :=
  {| tool_inputs := v; job_stdio := job_stdio l;
     job_output_exceptions := job_output_exceptions l;
     tool_execution_exception := tool_execution_exception l;
     expected_failure_occurred := expected_failure_occurred l;
     data_list := data_list l; test_jobs := test_jobs l;
     data_collection_list := data_collection_list l |}.

Definition set_job_stdio (v : value) (l : locals) : locals :=
  {| tool_inputs := tool_inputs l; job_stdio := v;
     job_output_exceptions := job_output_exceptions l;
     tool_execution_exception := tool_execution_exception l;
     expected_failure_occurred := expected_failure_occurred l;
     data_list := data_list l; test_jobs := test_jobs l;
     data_collection_list := data_collection_list l |}.

Definition set_job_output_exceptions (v : option (list exn)) (l : locals) : locals :=
  {| tool_inputs := tool_inputs l; job_stdio := job_stdio l;
     job_output_exceptions := v;
     tool_execution_exception := tool_execution_exception l;
     expected_failure_occurred := expected_failure_occurred l;
     data_list := data_list l; test_jobs := test_jobs l;
     data_collection_list := data_collection_list l |}.

Definition set_tool_execution_exception (v : option exn) (l : locals) : locals :=
  {| tool_inputs := tool_inputs l; job_stdio := job_stdio l;
     job_output_exceptions := job_output_exceptions l;
     tool_execution_exception := v;
     expected_failure_occurred := expected_failure_occurred l;
     data_list := data_list l; test_jobs := test_jobs l;
     data_collection_list := data_collection_list l |}.

Definition set_expected_failure_occurred (v : bool) (l : locals) : locals :=
  {| tool_inputs := tool_inputs l; job_stdio := job_stdio l;
     job_output_exceptions := job_output_exceptions l;
     tool_execution_exception := tool_execution_exception l;
     expected_failure_occurred := v;
     data_list := data_list l; test_jobs := test_jobs l;
     data_collection_list := data_collection_list l |}.

(** Lines 169-170: the four attributes of the response. *)
Definition set_response (r : tool_response) (l : locals) : locals :=
  {| tool_inputs := inputs r; job_stdio := job_stdio l;
     job_output_exceptions := job_output_exceptions l;
     tool_execution_exception := tool_execution_exception l;
     expected_failure_occurred := expected_failure_occurred l;
     data_list := outputs r; test_jobs := jobs r;
     data_collection_list := output_collections r |}.

(** The state of the [try] statement: the world and the local variables. *)
Definition vstate : Type := state * locals.

Definition world {A} (m : M state A) : M vstate A :=
  λ s, match m (fst s) with (r, w) => (r, (w, snd s)) end.

Definition read_locals : M vstate locals := λ s, (Ret (snd s), s).

Definition assign (f : locals → locals) : M vstate unit :=
  λ s, (Ret tt, (fst s, f (snd s))).

Definition with_locals {A} (init : locals) (m : M vstate A) : M state A :=
  λ w, match m (w, init) with (r, s) => (r, fst s) end.

Definition DEFAULT_TOOL_TEST_WAIT : Z := 86400.

(** Lines 197-214: the record handed to [register_job_data]. *)
Definition build_job_data (tool_id tool_version : value) (test_index : Z)
    (begin_time end_time : float) (l : locals) : dict :=
  let job_data : dict :=
    <["time_seconds" := VFloat (PrimFloat.sub end_time begin_time)]>
      (<["test_index" := VInt test_index]>
         (<["tool_version" := tool_version]>
            (<["tool_id" := tool_id]> ∅))) in
  let job_data :=
    if negb (is_None (tool_inputs l))
    then <["inputs" := tool_inputs l]> job_data else job_data in
  let job_data :=
    if negb (is_None (job_stdio l))
    then <["job" := job_stdio l]> job_data else job_data in
  let status := "success" in
  let '(job_data, status) :=
    match job_output_exceptions l with
    | Some (e :: es) =>
        (<["output_problems" := VList (unicodify env <$> (e :: es))]> job_data,
         "failure")
    | _ => (job_data, status)
    end in
  let '(job_data, status) :=
    match tool_execution_exception l with
    | Some e => (<["execution_problem" := unicodify env e]> job_data, "error")
    | None => (job_data, status)
    end in
  <["status" := VStr status]> job_data.

(** Lines 167-180: run the tool, recording what it raised. *)
Definition run_tool_step (gi : galaxy_interactor) (td : testdef)
    (test_history : value) (resource_parameters : dict) : M vstate unit :=
  try_except
    (let* tool_response := world (call_run_tool gi td test_history resource_parameters) in
     assign (set_response tool_response))
    (λ e,
       match e with
       | RunToolException _ e_inputs =>
           assign (set_tool_inputs e_inputs) ;;;
           assign (set_tool_execution_exception (Some e)) ;;;
           if negb (expect_failure td) then raise e
           else assign (set_expected_failure_occurred true)
       | _ =>
           if is_Exception e then
             assign (set_tool_execution_exception (Some e)) ;;;
             raise e
           else raise e
       end).

(** Lines 182-193: check the outputs unless the expected failure occurred. *)
Definition verify_outputs_step (td : testdef) (test_history tool_id : value)
    (quiet : bool) : M vstate unit :=
  let* l := read_locals in
  if negb (expected_failure_occurred l) then
    (if truthy (data_list l) || truthy (data_collection_list l) then ret tt
     else raise (Exn AssertionError MsgNone)) ;;;
    try_except
      (let* stdio := world (call_verify_outputs td test_history (test_jobs l) tool_id
                              (data_list l) (data_collection_list l) quiet) in
       assign (set_job_stdio stdio))
      (λ e,
         match e with
         | JobOutputsError output_exceptions stdio =>
             assign (set_job_stdio stdio) ;;;
             assign (set_job_output_exceptions (Some output_exceptions)) ;;;
             raise e
         | _ =>
             if is_Exception e then
               assign (set_job_output_exceptions (Some [e])) ;;;
               raise e
             else raise e
         end)
  else ret tt.

(** Lines 194-215: the [finally] clause. *)
Definition register_step (register_job_data : option (dict → option exn))
    (tool_id tool_version : value) (test_index : Z) (begin_time : float)
  : M vstate unit :=
  match register_job_data with
  | Some register =>
      let* end_time := world call_time in
      let* l := read_locals in
      let job_data := build_job_data tool_id tool_version test_index
                        begin_time end_time l in
      world (call_register_job_data register job_data)
  | None => ret tt
  end.

(** Lines 141-148: pick the test, build its description, make sure
    there is a history. *)
Definition verify_setup
    (tool_id : value)
    (gi : galaxy_interactor)
    (test_index : Z)
    (tool_version : value)
    (test_history : value)
    (maxseconds : value)
    (tool_test_dicts : option (list loc)) : M state (testdef * value) :=
  let* tool_test_dicts :=
    match tool_test_dicts with
    | Some (d :: ds) => ret (d :: ds)
    | _ => call_get_tool_tests gi tool_id tool_version
    end in
  let* tool_test_dict :=
    match py_index tool_test_dicts test_index with
    | Some d => ret d
    | None => raise (Exn IndexError MsgNone)
    end in
  setdefault tool_test_dict "maxseconds" maxseconds ;;;
  let* d := load tool_test_dict in
  let* td := call_ToolTestDescription d in
  call_handle_def_errors td ;;;
  let* test_history :=
    if is_None test_history then call_new_history gi else ret test_history in
  ret (td, test_history).

(** Lines 160-215: the [try] statement. *)
Definition verify_try
    (tool_id : value)
    (gi : galaxy_interactor)
    (resource_parameters : dict)
    (register_job_data : option (dict → option exn))
    (test_index : Z)
    (tool_version : value)
    (quiet : bool)
    (force_path_paste : bool)
    (maxseconds : value)
    (td : testdef)
    (test_history : value)
    (begin_time : float) : M vstate unit :=
  try_finally
    (world (call_stage_data_in_history tool_id (test_data td) test_history
              force_path_paste maxseconds) ;;;
     run_tool_step gi td test_history resource_parameters ;;;
     verify_outputs_step td test_history tool_id quiet)
    (register_step register_job_data tool_id tool_version test_index begin_time).

Definition verify_tool_keep_history
    (tool_id : value)
    (gi : galaxy_interactor)
    (resource_parameters : option dict)
    (register_job_data : option (dict → option exn))
    (test_index : Z)
    (tool_version : value)
    (quiet : bool)
    (test_history : value)
    (force_path_paste : bool)
    (maxseconds : value)
    (tool_test_dicts : option (list loc)) : M state unit :=
  let resource_parameters := default ∅ resource_parameters in
  let* (td, test_history) :=
    verify_setup tool_id gi test_index tool_version test_history maxseconds
      tool_test_dicts in
  let* begin_time := call_time in
  with_locals initial_locals
    (verify_try tool_id gi resource_parameters register_job_data test_index
       tool_version quiet force_path_paste maxseconds td test_history begin_time).

End Module.

(** * Specification vocabulary

    The predicates in which the properties below are stated: a program
    logic for computations, and what a run leaves in the heap and in the
    trace. *)

Local Open Scope list_scope.

(** [wp m Q E s]: started in [s], the computation [m] either returns some
    [a] in a state satisfying [Q a], or raises some [e] in a state
    satisfying [E e].  Computations are total functions, so one of the two
    always happens. *)
Definition wp {S A} (m : M S A) (Q : A → S → Prop) (E : exn → S → Prop) (s : S) : Prop :=
  match m s with
  | (Ret a, s') => Q a s'
  | (Raise e, s') => E e s'
  end.

(** The errors the module raises itself, by class. *)
Definition own_error (e : exn) : bool :=
  match e with
  | Exn KeyError _ | Exn LookupError _ | Exn IndexError _
  | Exn TypeError _ | Exn AttributeError _ | Exn AssertionError _ => true
  | _ => false
  end.

(** An exception that a call recorded in [evs] answered with. *)
Definition propagated (evs : list event) (e : exn) : Prop :=
  ∃ ev, ev ∈ evs ∧ event_raised ev = Some e.

(** Every object of [s] is the same in [s']. *)
Definition objects_kept (s s' : state) : Prop :=
  ∀ l, is_Some (heap s !! l) → heap s' !! l = heap s !! l.

(** The items of a dictionary whose key is one of [VALID_KEYS]. *)
Definition valid_part (d : dict) : dict :=
  filter (λ kv, kv.1 ∈ VALID_KEYS) d.

(** One turn of the loop of lines 106-108, on the dictionary being built. *)
Definition copy_item (acc : dict) (item : string * value) : dict :=
  if bool_decide (item.1 ∈ VALID_KEYS) then <[item.1 := item.2]> acc else acc.

(** What the state is after an action that touches nothing but the heap. *)
Definition heap_only (s s' : state) : Prop :=
  objects_kept s s' ∧ trace s' = trace s ∧ ticks s' = ticks s.

(** The dictionaries one input element gives rise to: what lines 105-122
    append, as values. *)
Definition entries (d : dict) : outcome (list dict) :=
  match d !! "revisions" with
  | None => Ret [valid_part d]
  | Some revisions =>
      if negb (truthy revisions) then Ret [valid_part d]
      else
        match py_iter revisions with
        | Ret revs => Ret ((λ r, <["changeset_revision" := r]> (valid_part d)) <$> revs)
        | Raise e => Raise e
        end
  end.

(** The same for a list of input elements; the first failure ends it. *)
Fixpoint all_entries (ds : list dict) : outcome (list dict) :=
  match ds with
  | [] => Ret []
  | d :: ds' =>
      match entries d with
      | Ret xs =>
          match all_entries ds' with
          | Ret ys => Ret (xs ++ ys)
          | Raise e => Raise e
          end
      | Raise e => Raise e
      end
  end.

(** The new objects [locs] of [s'] hold the dictionaries [xs]. *)
Definition holds (s s' : state) (locs : list loc) (xs : list dict) : Prop :=
  Forall2 (λ l x, heap s' !! l = Some x) locs xs ∧
  NoDup locs ∧ Forall (λ l, heap s !! l = None) locs.

(** The entries the specification lists for one input element: with a non-empty
    list under [revisions], one copy of the valid part per revision, the
    i-th carrying the i-th revision; otherwise the valid part alone. *)
Definition one_per_revision (d : dict) : list dict :=
  match d !! "revisions" with
  | Some (VList (rev :: revs)) =>
      (λ r, <["changeset_revision" := r]> (valid_part d)) <$> (rev :: revs)
  | _ => [valid_part d]
  end.


(** Every key of [x] is one of [VALID_KEYS]. *)
Definition only_valid_keys (x : dict) : Prop :=
  ∀ k, is_Some (x !! k) → k ∈ VALID_KEYS.

(** The kinds of call of a test. *)
Definition is_stage (ev : event) : bool :=
  match ev with EvStage _ _ _ => true | _ => false end.

Definition is_run_tool (ev : event) : bool :=
  match ev with EvRunTool _ _ _ => true | _ => false end.

Definition is_verify_outputs (ev : event) : bool :=
  match ev with EvVerifyOutputs _ _ _ => true | _ => false end.

Definition is_register (ev : event) : bool :=
  match ev with EvRegister _ _ => true | _ => false end.

(** How often a kind of call was made. *)
Definition calls (kind : event → bool) (evs : list event) : nat :=
  length (List.filter kind evs).

(** The records handed to [register_job_data], in order. *)
Definition registrations (evs : list event) : list dict :=
  omap (λ ev, match ev with EvRegister job_data _ => Some job_data | _ => None end) evs.

(** The end of a test: nothing, or the one call of [register_job_data]. *)
Definition after_test (evs : list event) : Prop :=
  match evs with
  | [] | [EvRegister _ _] => True
  | _ => False
  end.

(** The calls of one test, in their order: staging; after a staging that
    returned, one invocation of the tool; after an invocation that
    returned, at most one verification of the outputs. *)
Definition drives_one_test (evs : list event) : Prop :=
  match evs with
  | EvStage _ _ (Some _) :: rest => after_test rest
  | EvStage _ _ None :: EvRunTool _ _ (Raise _) :: rest => after_test rest
  | EvStage _ _ None :: EvRunTool _ _ (Ret _) :: EvVerifyOutputs _ _ _ :: rest =>
      after_test rest
  | EvStage _ _ None :: EvRunTool _ _ (Ret _) :: rest => after_test rest
  | _ => False
  end.

(** The tool was run and raised an exception that line 171 or 178 caught. *)
Definition recorded_execution_problem (ev : event) : bool :=
  match ev with
  | EvRunTool _ _ (Raise e) => is_Exception e
  | _ => false
  end.

(** The verification raised an exception that line 187 or 191 caught, and
    that left a non-empty [job_output_exceptions]. *)
Definition recorded_output_problems (ev : event) : bool :=
  match ev with
  | EvVerifyOutputs _ _ (Raise (JobOutputsError [] _)) => false
  | EvVerifyOutputs _ _ (Raise e) => is_Exception e
  | _ => false
  end.

(** The [status] that lines 207-214 give to a test with the calls [evs]. *)
Definition expected_status (evs : list event) : string :=
  if existsb recorded_execution_problem evs then "error"
  else if existsb recorded_output_problems evs then "failure"
  else "success".

(** Lines 207-214 on the local variables. *)
Definition status_of (l : locals) : string :=
  match tool_execution_exception l with
  | Some _ => "error"
  | None =>
      match job_output_exceptions l with
      | Some (_ :: _) => "failure"
      | _ => "success"
      end
  end.

(** What the record handed over says, given the calls [evs] of the test. *)
Definition record_of (env : services) (tool_id tool_version : value) (test_index : Z)
    (begin_time end_time : float) (evs : list event) (job_data : dict) : Prop :=
  job_data !! "tool_id" = Some tool_id ∧
  job_data !! "tool_version" = Some tool_version ∧
  job_data !! "test_index" = Some (VInt test_index) ∧
  job_data !! "time_seconds" = Some (VFloat (PrimFloat.sub end_time begin_time)) ∧
  job_data !! "status" = Some (VStr (expected_status evs)).

(** What the [try] statement of lines 160-215 does, started in [w] and
    ending in [w'] with outcome [r]: the calls of one test, in order, with
    the heap untouched; an exception is one of a call, or the assertion of
    line 183; the record, if asked for, is registered once, at the end. *)
Definition tried (env : services) (tool_id tool_version : value) (test_index : Z)
    (register_job_data : option (dict → option exn)) (begin_time : float)
    (w : state) (r : outcome unit) (w' : state) : Prop :=
  ∃ evs,
    trace w' = trace w ++ evs ∧ heap w' = heap w ∧
    drives_one_test evs ∧
    match r with
    | Ret _ => True
    | Raise e => propagated evs e ∨ e = Exn AssertionError MsgNone
    end ∧
    match register_job_data with
    | None => registrations evs = [] ∧ ticks w' = ticks w
    | Some register =>
        ∃ job_data,
          last evs = Some (EvRegister job_data (register job_data)) ∧
          registrations evs = [job_data] ∧
          ticks w' = S (ticks w) ∧
          record_of env tool_id tool_version test_index begin_time
            (time_time env (ticks w)) evs job_data
    end.

(** The calls of lines 141-148. *)
Definition is_setup_event (ev : event) : bool :=
  match ev with
  | EvGetToolTests _ _ _ | EvToolTestDescription _ _
  | EvHandleDefErrors _ _ | EvNewHistory _ => true
  | _ => false
  end.

(** The heap is as it was, but for the default for [maxseconds] that a
    test dictionary without one has got. *)
Definition maxseconds_defaulted (maxseconds : value) (s s1 : state) : Prop :=
  heap s1 = heap s ∨
  ∃ l d, heap s !! l = Some d ∧ d !! "maxseconds" = None ∧
         heap s1 = <[l := <["maxseconds" := maxseconds]> d]> (heap s).

(** What the set-up does to the state: calls of its own kinds only, no
    reading of the clock, and at most one change of the heap. *)
Definition set_up (maxseconds : value) (s s1 : state) (evs0 : list event) : Prop :=
  trace s1 = trace s ++ evs0 ∧
  forallb is_setup_event evs0 = true ∧
  ticks s1 = ticks s ∧
  maxseconds_defaulted maxseconds s s1.

(** The lists of test dictionaries the function may choose from. *)
Definition candidate_tests (gi : galaxy_interactor) (tool_id tool_version : value)
    (tool_test_dicts : option (list loc)) (tests : list loc) : Prop :=
  tool_test_dicts = Some tests ∨ get_tool_tests gi tool_id tool_version = Ret tests.

(** The chosen test is a reference to no object. *)
Definition dangling_test (gi : galaxy_interactor) (tool_id tool_version : value)
    (tool_test_dicts : option (list loc)) (test_index : Z) (s : state) : Prop :=
  ∃ tests l,
    candidate_tests gi tool_id tool_version tool_test_dicts tests ∧
    py_index tests test_index = Some l ∧ heap s !! l = None.



(** The check of lines 44-47 lets the tool pass: no panel section is
    required, or one is given, or "data_manager" occurs in the name. *)
Definition panel_settled (require_tool_panel_info : bool) (d : dict) : Prop :=
  require_tool_panel_info = false ∨
  is_None (dict_get d "tool_panel_section_id") = false ∨
  is_None (dict_get d "tool_panel_section_label") = false ∨
  ∃ name, d !! "name" = Some name ∧ py_str_in "data_manager" name = Ret true.

(** The repository dictionary that [complete_repo_information] builds for
    the tool dictionary [d]: the tool's own values, the defaults for what it
    leaves out, the tool-shed URL [url] formatted, and [revision]. *)
Definition normalized (d : dict) (url : string) (revision : value)
    (default_install_tool_dependencies default_install_repository_dependencies
     default_install_resolver_dependencies : value) : dict :=
  <["install_tool_dependencies" :=
      dict_get_default d "install_tool_dependencies" default_install_tool_dependencies]>
    (<["install_resolver_dependencies" :=
         dict_get_default d "install_resolver_dependencies"
           default_install_resolver_dependencies]>
       (<["install_repository_dependencies" :=
            dict_get_default d "install_repository_dependencies"
              default_install_repository_dependencies]>
          (<["changeset_revision" := revision]>
             (<["tool_shed_url" := VStr (format_tool_shed_url url)]>
                (<["tool_panel_section_label" := dict_get d "tool_panel_section_label"]>
                   (<["tool_panel_section_id" := dict_get d "tool_panel_section_id"]>
                      (<["owner" := dict_get d "owner"]>
                         (<["name" := dict_get d "name"]> ∅)))))))).

(** What a record holds under a key that is set only for a value other
    than [None] (lines 203-206). *)
Definition present (v : value) : option value :=
  if is_None v then None else Some v.

(** How a [try] statement with a [finally] clause ends: with the
    exception of the clause if it raised one, else as its body did. *)
Definition after_finally {A} (body : outcome A) (clause : option exn) : outcome A :=
  match clause with
  | Some e => Raise e
  | None => body
  end.

(** The keys a record handed to [register_job_data] can have. *)
Definition record_keys : list string :=
  ["tool_id"; "tool_version"; "test_index"; "time_seconds"; "inputs"; "job";
   "output_problems"; "execution_problem"; "status"].

(** A record's [status] agrees with the problems it holds: "error" with
    an execution problem, "failure" with output problems and no execution
    problem, "success" with neither. *)
Definition record_consistent (job_data : dict) : Prop :=
  (∀ k, is_Some (job_data !! k) → k ∈ record_keys) ∧
  match job_data !! "execution_problem", job_data !! "output_problems" with
  | Some _, _ => job_data !! "status" = Some (VStr "error")
  | None, Some _ => job_data !! "status" = Some (VStr "failure")
  | None, None => job_data !! "status" = Some (VStr "success")
  end.

(** A test dictionary after [setdefault('maxseconds', maxseconds)]. *)
Definition with_maxseconds (maxseconds : value) (d : dict) : dict :=
  match d !! "maxseconds" with
  | Some _ => d
  | None => <["maxseconds" := maxseconds]> d
  end.

(** Where the list of tests comes from (line 141): the one supplied
    unless it is missing or empty, else the one query; [evs] is what the
    choice leaves in the trace. *)
Definition tests_from (gi : galaxy_interactor) (tool_id tool_version : value)
    (tool_test_dicts : option (list loc)) (tests : list loc) (evs : list event) : Prop :=
  (tool_test_dicts = Some tests ∧ tests ≠ [] ∧ evs = []) ∨
  ((tool_test_dicts = None ∨ tool_test_dicts = Some []) ∧
   get_tool_tests gi tool_id tool_version = Ret tests ∧
   evs = [EvGetToolTests tool_id tool_version (Ret tests)]).

(** Where the history comes from (lines 147-148). *)
Definition history_from (gi : galaxy_interactor) (test_history history : value)
    (evs : list event) : Prop :=
  (is_None test_history = false ∧ history = test_history ∧ evs = []) ∨
  (is_None test_history = true ∧ new_history gi = Ret history ∧
   evs = [EvNewHistory (Ret history)]).

Local Open Scope string_scope.
Local Open Scope Z_scope.

(** ** Sample environments

    Concrete services and states on which the module can be run. *)

(** Services in which every call succeeds; the catalog answers [revs]. *)
Definition sample_services (revs : outcome (list value)) : services :=
  {| get_ordered_installable_revisions := λ _ _ _, revs;
     ToolTestDescription := λ _, Ret {| expect_failure := false; test_data := VNone |};
     _handle_def_errors := λ _, None;
     stage_data_in_history := λ _ _ _ _ _, None;
     _verify_outputs := λ _ _ _ _ _ _ _, Ret (VStr "stdout");
     unicodify := λ _, VStr "problem";
     time_time := λ n, PrimFloat.of_uint63 (Uint63.of_nat n) |}.

Definition sample_response : tool_response :=
  {| outputs := VList [VStr "out1"]; jobs := VList [VStr "job1"];
     inputs := VList [VStr "in1"]; output_collections := VList [] |}.

Definition sample_interactor (tests : list loc) : galaxy_interactor :=
  {| get_tool_tests := λ _ _, Ret tests;
     new_history := Ret (VStr "history");
     run_tool := λ _ _ _, Ret sample_response |}.

Definition state_of (h : gmap loc dict) : state :=
  {| heap := h; trace := []; ticks := 0 |}.

Definition multi_revision_repo : dict :=
  <["name" := VStr "bwa"]>
    (<["owner" := VStr "devteam"]>
       (<["tool_panel_section_label" := VStr "Mapping"]>
          (<["comment" := VStr "pinned for the course"]>
             (<["revisions" := VList [VStr "r1"; VStr "r2"]]> ∅)))).

Definition plain_repo : dict :=
  <["name" := VStr "fastqc"]> (<["owner" := VStr "devteam"]> ∅).

Definition two_repos : state :=
  state_of (<[1%positive := multi_revision_repo]> {[ 2%positive := plain_repo ]}).

(** A history with one test dictionary, which sets no [maxseconds]. *)
Definition sample_test : dict :=
  <["inputs" := VList [VStr "input1"]]> (<["name" := VStr "test-1"]> ∅).

Definition one_test : state := state_of {[ 1%positive := sample_test ]}.

(** Services in which staging fails. *)
Definition failing_stage_services : services :=
  {| get_ordered_installable_revisions := λ _ _ _, Ret [];
     ToolTestDescription := λ _, Ret {| expect_failure := false; test_data := VNone |};
     _handle_def_errors := λ _, None;
     stage_data_in_history :=
       λ _ _ _ _ _, Some (Exn OtherException (MsgText "upload failed"));
     _verify_outputs := λ _ _ _ _ _ _ _, Ret (VStr "stdout");
     unicodify := λ _, VStr "problem";
     time_time := λ n, PrimFloat.of_uint63 (Uint63.of_nat n) |}.

(** Services in which the test has a definition error. *)
Definition definition_error_services : services :=
  {| get_ordered_installable_revisions := λ _ _ _, Ret [];
     ToolTestDescription := λ _, Ret {| expect_failure := false; test_data := VNone |};
     _handle_def_errors :=
       λ _, Some (Exn OtherException (MsgText "Test parse failure"));
     stage_data_in_history := λ _ _ _ _ _, None;
     _verify_outputs := λ _ _ _ _ _ _ _, Ret (VStr "stdout");
     unicodify := λ _, VStr "problem";
     time_time := λ n, PrimFloat.of_uint63 (Uint63.of_nat n) |}.

(** A [register_job_data] that accepts every record. *)
Definition accept_job_data : dict → option exn := λ _, None.

Definition pinned_repository : dict :=
  <["name" := VStr "bwa"]>
    (<["owner" := VStr "devteam"]>
       (<["tool_shed_url" := VStr "https://toolshed.g2.bx.psu.edu/"]>
          (<["changeset_revision" := VStr "pinned"]> ∅))).

Definition unpinned_repository : dict :=
  <["changeset_revision" := VNone]> pinned_repository.

Definition bwa_tool : dict :=
  <["name" := VStr "bwa"]>
    (<["owner" := VStr "devteam"]>
       (<["changeset_revision" := VStr "abc"]> ∅)).



(** An interactor whose tool run gives no outputs. *)
Definition empty_response : tool_response :=
  {| outputs := VList []; jobs := VList [VStr "job1"];
     inputs := VList [VStr "in1"]; output_collections := VList [] |}.

Definition no_output_interactor (tests : list loc) : galaxy_interactor :=
  {| get_tool_tests := λ _ _, Ret tests;
     new_history := Ret (VStr "history");
     run_tool := λ _ _ _, Ret empty_response |}.

(** Services in which the test expects the tool to fail. *)
Definition expected_failure_services : services :=
  {| get_ordered_installable_revisions := λ _ _ _, Ret [];
     ToolTestDescription := λ _, Ret {| expect_failure := true; test_data := VNone |};
     _handle_def_errors := λ _, None;
     stage_data_in_history := λ _ _ _ _ _, None;
     _verify_outputs := λ _ _ _ _ _ _ _, Ret (VStr "stdout");
     unicodify := λ _, VStr "problem";
     time_time := λ n, PrimFloat.of_uint63 (Uint63.of_nat n) |}.

(** Services in which the verification finds a problem with an output. *)
Definition output_problem_services : services :=
  {| get_ordered_installable_revisions := λ _ _ _, Ret [];
     ToolTestDescription := λ _, Ret {| expect_failure := false; test_data := VNone |};
     _handle_def_errors := λ _, None;
     stage_data_in_history := λ _ _ _ _ _, None;
     _verify_outputs := λ _ _ _ _ _ _ _,
       Raise (JobOutputsError [Exn AssertionError (MsgText "output differs")]
                (VStr "stdout"));
     unicodify := λ _, VStr "problem";
     time_time := λ n, PrimFloat.of_uint63 (Uint63.of_nat n) |}.

(** A [register_job_data] that raises. *)
Definition reject_job_data : dict → option exn :=
  λ _, Some (Exn OtherException (MsgText "disk full")).


(** Services in which the verification itself breaks. *)
Definition broken_verification_services : services :=
  {| get_ordered_installable_revisions := λ _ _ _, Ret [];
     ToolTestDescription := λ _, Ret {| expect_failure := false; test_data := VNone |};
     _handle_def_errors := λ _, None;
     stage_data_in_history := λ _ _ _ _ _, None;
     _verify_outputs := λ _ _ _ _ _ _ _,
       Raise (Exn OtherException (MsgText "connection lost"));
     unicodify := λ _, VStr "problem";
     time_time := λ n, PrimFloat.of_uint63 (Uint63.of_nat n) |}.

(** * Properties *)

Example format_tool_shed_url_bare :
  format_tool_shed_url "toolshed.g2.bx.psu.edu" = "https://toolshed.g2.bx.psu.edu/".
Proof. reflexivity. Qed.

Example format_tool_shed_url_http :
  format_tool_shed_url "http://localhost:9009" = "http://localhost:9009/".
Proof. reflexivity. Qed.

Example format_tool_shed_url_empty : format_tool_shed_url "" = "https:///".
Proof. reflexivity. Qed.

(** ** Strings *)

Lemma append_nil (t : string) : "" ++ t = t.
Proof. reflexivity. Qed.

Lemma append_cons a (s t : string) : String a s ++ t = String a (s ++ t).
Proof. reflexivity. Qed.

Lemma append_nil_r (s : string) : s ++ "" = s.
Proof.
  induction s as [|a s IH]; [reflexivity|].
  rewrite append_cons, IH. reflexivity.
Qed.

Lemma endswith_refl s : endswith s s = true.
Proof. destruct s; cbn [endswith]; rewrite String.eqb_refl; reflexivity. Qed.

Lemma endswith_cons a s suf : endswith s suf = true → endswith (String a s) suf = true.
Proof. intros H. cbn [endswith]. rewrite H. apply orb_true_r. Qed.

Lemma endswith_app t s suf : endswith s suf = true → endswith (t ++ s) suf = true.
Proof.
  intros H. induction t as [|a t IH]; [exact H|].
  rewrite append_cons. apply endswith_cons, IH.
Qed.

(** Appending a slash never creates, and never destroys, a leading "http". *)
Lemma startswith_http_slash s :
  startswith (s ++ "/") "http" = startswith s "http".
Proof.
  unfold startswith.
  destruct s as [|a [|b [|c [|d s]]]];
    rewrite ?append_cons, ?append_nil; cbn -[Ascii.ascii_dec];
    repeat (match goal with
            | |- context [Ascii.ascii_dec ?x ?y] => destruct (Ascii.ascii_dec x y)
            end; cbn -[Ascii.ascii_dec]; try reflexivity; try congruence).
  all: destruct s; reflexivity.
Qed.

(** The two tests of [format_tool_shed_url] act independently: the result
    is the input with a slash added behind unless one is there, and the
    scheme put in front unless the input starts with "http". *)
Lemma format_tool_shed_url_closed_form s :
  format_tool_shed_url s =
  (if startswith s "http" then "" else "https://") ++
  s ++ (if endswith s "/" then "" else "/").
Proof.
  unfold format_tool_shed_url.
  destruct (endswith s "/"); cbn [negb].
  - rewrite append_nil_r. destruct (startswith s "http"); reflexivity.
  - rewrite startswith_http_slash. destruct (startswith s "http"); reflexivity.
Qed.

Lemma format_tool_shed_url_endswith_slash s :
  endswith (format_tool_shed_url s) "/" = true.
Proof.
  rewrite format_tool_shed_url_closed_form.
  apply endswith_app.
  destruct (endswith s "/") eqn:E.
  - rewrite append_nil_r. exact E.
  - apply endswith_app, endswith_refl.
Qed.

Lemma format_tool_shed_url_startswith_http s :
  startswith (format_tool_shed_url s) "http" = true.
Proof.
  rewrite format_tool_shed_url_closed_form.
  destruct (startswith s "http") eqn:E; [|reflexivity].
  rewrite append_nil.
  destruct (endswith s "/").
  - rewrite append_nil_r. exact E.
  - rewrite startswith_http_slash. exact E.
Qed.

(** C9. [format_tool_shed_url] normalizes and is idempotent: for every
    string the result ends with "/" and starts with "http"; "https://" is
    put in front exactly when the input does not start with "http" (and a
    slash behind exactly when the input does not end with one); and the
    function maps its own output to itself. *)
Theorem format_tool_shed_url_normalizing_idempotent (s : string) :
  endswith (format_tool_shed_url s) "/" = true ∧
  startswith (format_tool_shed_url s) "http" = true ∧
  format_tool_shed_url s =
    (if startswith s "http" then "" else "https://") ++
    s ++ (if endswith s "/" then "" else "/") ∧
  format_tool_shed_url (format_tool_shed_url s) = format_tool_shed_url s.
Proof.
  split; [apply format_tool_shed_url_endswith_slash|].
  split; [apply format_tool_shed_url_startswith_http|].
  split; [apply format_tool_shed_url_closed_form|].
  rewrite (format_tool_shed_url_closed_form (format_tool_shed_url s)).
  rewrite format_tool_shed_url_endswith_slash, format_tool_shed_url_startswith_http.
  rewrite append_nil, append_nil_r. reflexivity.
Qed.

(** ** The rules of the program logic *)

Section Logic.
Context {S : Type}.
Implicit Types s : S.

Lemma wp_ret {A} (a : A) (Q : A → S → Prop) E s : Q a s → wp (ret a) Q E s.
Proof. exact id. Qed.

Lemma wp_raise {A} e (Q : A → S → Prop) (E : exn → S → Prop) s :
  E e s → wp (raise e) Q E s.
Proof. exact id. Qed.

Lemma wp_from_outcome {A} (r : outcome A) (Q : A → S → Prop) E s :
  match r with Ret a => Q a s | Raise e => E e s end → wp (from_outcome r) Q E s.
Proof. unfold wp, from_outcome. destruct r; exact id. Qed.

Lemma wp_bind {A B} (m : M S A) (k : A → M S B) (Q : B → S → Prop) E s :
  wp m (λ a s', wp (k a) Q E s') E s → wp (bind m k) Q E s.
Proof. unfold wp, bind. destruct (m s) as [[a|e] s']; exact id. Qed.

Lemma wp_try_except {A} (m : M S A) h (Q : A → S → Prop) E s :
  wp m Q (λ e s', wp (h e) Q E s') s → wp (try_except m h) Q E s.
Proof. unfold wp, try_except. destruct (m s) as [[a|e] s']; exact id. Qed.

Lemma wp_try_finally {A} (m : M S A) fin (Q : A → S → Prop) E s :
  wp m (λ a s1, wp fin (λ _ s2, Q a s2) E s1)
       (λ e s1, wp fin (λ _ s2, E e s2) E s1) s →
  wp (try_finally m fin) Q E s.
Proof.
  unfold wp, try_finally.
  destruct (m s) as [[a|e] s1]; destruct (fin s1) as [[[]|e'] s2]; exact id.
Qed.

Lemma wp_mono {A} (m : M S A) (Q Q' : A → S → Prop) (E E' : exn → S → Prop) s :
  wp m Q E s →
  (∀ a s', Q a s' → Q' a s') → (∀ e s', E e s' → E' e s') →
  wp m Q' E' s.
Proof. unfold wp. destruct (m s) as [[a|e] s']; eauto. Qed.

(** From the logic back to runs. *)
Lemma wp_run {A} (m : M S A) Q E s r s' :
  wp m Q E s → m s = (r, s') →
  match r with Ret a => Q a s' | Raise e => E e s' end.
Proof. unfold wp. intros H Hrun. rewrite Hrun in H. destruct r; exact H. Qed.

Lemma wp_returns {A} (m : M S A) (Q : A → S → Prop) s :
  wp m Q (λ _ _, False) s → ∃ a s', m s = (Ret a, s') ∧ Q a s'.
Proof. unfold wp. destruct (m s) as [[a|e] s']; [eauto|tauto]. Qed.

Lemma wp_raises {A} (m : M S A) (E : exn → S → Prop) s :
  wp m (λ _ _, False) E s → ∃ e s', m s = (Raise e, s') ∧ E e s'.
Proof. unfold wp. destruct (m s) as [[a|e] s']; [tauto|eauto]. Qed.

Lemma wp_of_run {A} (m : M S A) (Q : A → S → Prop) (E : exn → S → Prop) s r s' :
  m s = (r, s') →
  match r with Ret a => Q a s' | Raise e => E e s' end →
  wp m Q E s.
Proof. unfold wp. intros ->. destruct r; exact id. Qed.

Lemma wp_outcome {A} (m : M S A) (P : outcome A → S → Prop) s :
  wp m (λ a, P (Ret a)) (λ e, P (Raise e)) s → ∃ r s', m s = (r, s') ∧ P r s'.
Proof. unfold wp. destruct (m s) as [[a|e] s']; eauto. Qed.

Lemma wp_eq {A} (m : M S A) s x :
  wp m (λ a s', (Ret a, s') = x) (λ e s', (Raise e, s') = x) s → m s = x.
Proof. unfold wp. destruct (m s) as [[a|e] s']; exact id. Qed.

End Logic.

(** *** The heap *)

Lemma wp_alloc d (Q : loc → state → Prop) E s :
  Q (fresh (dom (heap s))) (set_heap (<[fresh (dom (heap s)) := d]> (heap s)) s) →
  wp (alloc d) Q E s.
Proof. exact id. Qed.

Lemma wp_load l d (Q : dict → state → Prop) E s :
  heap s !! l = Some d → Q d s → wp (load l) Q E s.
Proof. unfold wp, load. intros ->. exact id. Qed.

Lemma wp_store l k v d (Q : unit → state → Prop) E s :
  heap s !! l = Some d →
  Q tt (set_heap (<[l := <[k := v]> d]> (heap s)) s) →
  wp (store l k v) Q E s.
Proof. unfold wp, store, bind, load. intros ->. exact id. Qed.

Lemma wp_subscript l k d (Q : value → state → Prop) E s :
  heap s !! l = Some d →
  match d !! k with
  | Some v => Q v s
  | None => E (Exn KeyError (MsgKey k)) s
  end →
  wp (subscript l k) Q E s.
Proof. unfold wp, subscript, bind, load. intros ->. destruct (d !! k); exact id. Qed.

Lemma wp_get l k d (Q : value → state → Prop) E s :
  heap s !! l = Some d → Q (dict_get d k) s → wp (get l k) Q E s.
Proof. unfold wp, get, bind, load. intros ->. exact id. Qed.

Lemma wp_get_default l k dflt d (Q : value → state → Prop) E s :
  heap s !! l = Some d → Q (dict_get_default d k dflt) s →
  wp (get_default l k dflt) Q E s.
Proof. unfold wp, get_default, bind, load. intros ->. exact id. Qed.

(** The same without knowing that the reference is live. *)
Lemma wp_load_any l (Q : dict → state → Prop) (E : exn → state → Prop) s :
  match heap s !! l with
  | Some d => Q d s
  | None => E (Exn NoSuchObject MsgNone) s
  end →
  wp (load l) Q E s.
Proof. unfold wp, load. destruct (heap s !! l); exact id. Qed.

Lemma wp_setdefault l k v (Q : unit → state → Prop) (E : exn → state → Prop) s :
  match heap s !! l with
  | Some d =>
      match d !! k with
      | Some _ => Q tt s
      | None => Q tt (set_heap (<[l := <[k := v]> d]> (heap s)) s)
      end
  | None => E (Exn NoSuchObject MsgNone) s
  end →
  wp (setdefault l k v) Q E s.
Proof.
  unfold wp, setdefault, bind, load.
  destruct (heap s !! l) as [d|] eqn:Hl; [|exact id].
  destruct (d !! k); [exact id|]. unfold store, bind, load. rewrite Hl. exact id.
Qed.

(** A new object is none of the old ones. *)
Lemma fresh_loc_None (h : gmap loc dict) : h !! fresh (dom h) = None.
Proof. apply not_elem_of_dom, is_fresh. Qed.

(** *** Calls that leave the module *)

Lemma wp_call_catalog env url name owner (Q : list value → state → Prop) E s :
  match get_ordered_installable_revisions env url name owner with
  | Ret revs => Q revs (log (EvCatalog url name owner (Ret revs)) s)
  | Raise e => E e (log (EvCatalog url name owner (Raise e)) s)
  end →
  wp (call_catalog env url name owner) Q E s.
Proof.
  unfold wp, call_catalog.
  destruct (get_ordered_installable_revisions env url name owner); exact id.
Qed.

(** *** Stepping through a computation *)

Ltac wp_state := unfold set_heap, log; cbn [heap trace ticks fst snd].

Ltac wp_lookup :=
  wp_state;
  repeat first
    [ rewrite lookup_insert_eq
    | rewrite lookup_insert_ne by (let E := fresh in intros E; subst; congruence) ];
  first [ reflexivity | eassumption ].

Ltac wp_name_fresh :=
  wp_state;
  lazymatch goal with
  | |- context [fresh (dom ?h)] =>
      let r := fresh "r" in
      let H := fresh "Hfresh" in
      pose proof (fresh_loc_None h) as H;
      set (r := fresh (dom h)) in *;
      clearbody r
  end.

Lemma dict_get_insert_eq (d : dict) k v : dict_get (<[k := v]> d) k = v.
Proof. unfold dict_get. rewrite lookup_insert_eq. reflexivity. Qed.

Lemma dict_get_insert_ne (d : dict) k k' v :
  k ≠ k' → dict_get (<[k := v]> d) k' = dict_get d k'.
Proof. intros H. unfold dict_get. rewrite lookup_insert_ne by exact H. reflexivity. Qed.

(** Lookups in a dictionary written with literal keys. *)
Ltac wp_dict :=
  repeat first
    [ rewrite lookup_insert_eq
    | rewrite lookup_insert_ne by discriminate
    | rewrite dict_get_insert_eq
    | rewrite dict_get_insert_ne by discriminate ].

Ltac wp_rewrite :=
  repeat match goal with
         | H : ?lhs = _ |- context [?lhs] =>
             tryif is_var lhs then fail else rewrite H
         end;
  cbn [orb andb negb is_None format_tool_shed_url_value py_str_in py_iter].

Ltac wp_case x :=
  first
    [ progress wp_dict
    | progress wp_rewrite
    | destruct x eqn:? ].

Ltac wp_step :=
  cbv beta;
  lazymatch goal with
  | |- wp (bind _ _) _ _ _ => apply wp_bind
  | |- wp (ret _) _ _ _ => apply wp_ret; wp_state
  | |- wp (raise _) _ _ _ => apply wp_raise; wp_state
  | |- wp (from_outcome _) _ _ _ => apply wp_from_outcome
  | |- wp (alloc _) _ _ _ => apply wp_alloc; wp_name_fresh
  | |- wp (load _) _ _ _ => eapply wp_load; [wp_lookup|]
  | |- wp (store _ _ _) _ _ _ =>
      eapply wp_store; [wp_lookup|]; wp_state; rewrite ?insert_insert_eq
  | |- wp (subscript _ _) _ _ _ => eapply wp_subscript; [wp_lookup|]
  | |- wp (get _ _) _ _ _ => eapply wp_get; [wp_lookup|]
  | |- wp (get_default _ _ _) _ _ _ => eapply wp_get_default; [wp_lookup|]
  | |- wp (call_catalog _ _ _ _) _ _ _ => apply wp_call_catalog
  | |- wp (if ?b then _ else _) _ _ _ => wp_case b
  | |- wp (match ?x with _ => _ end) _ _ _ => wp_case x
  | |- match ?x with _ => _ end => wp_case x
  end.

Ltac wp_steps := repeat wp_step.

(** ** get_changeset_revisions *)

(** [xs[-1]] is the last element. *)
Lemma py_index_last {A} (xs : list A) : py_index xs (-1) = last xs.
Proof.
  unfold py_index. cbn [Z.leb Z.compare].
  destruct (Z.leb_spec 0 (-1 + Z.of_nat (length xs))) as [Hle|Hlt].
  - rewrite last_lookup. f_equal. lia.
  - destruct xs; [reflexivity|]. cbn [length] in Hlt. lia.
Qed.

Section GetChangesetRevisions.
Context (env : services).

(** A pinned revision, and no request for the latest: nothing happens. *)
Lemma get_changeset_revisions_pinned repository d s :
  heap s !! repository = Some d →
  is_None (dict_get d "changeset_revision") = false →
  get_changeset_revisions env repository false s = (Ret repository, s).
Proof.
  intros Hd Hpin.
  apply wp_eq. unfold get_changeset_revisions.
  wp_steps. reflexivity.
Qed.

(** No pinned revision, or the latest is asked for: one query, and the
    last revision the catalog lists is written into the dictionary. *)
Lemma get_changeset_revisions_resolved repository force d url name owner revs latest s :
  heap s !! repository = Some d →
  is_None (dict_get d "changeset_revision") || force = true →
  d !! "tool_shed_url" = Some url →
  d !! "name" = Some name →
  d !! "owner" = Some owner →
  get_ordered_installable_revisions env url name owner = Ret revs →
  last revs = Some latest →
  get_changeset_revisions env repository force s =
    (Ret repository,
     {| heap := <[repository := <["changeset_revision" := latest]> d]> (heap s);
        trace := trace s ++ [EvCatalog url name owner (Ret revs)];
        ticks := ticks s |}).
Proof.
  intros Hd Hforce Hurl Hname Howner Hcat Hlast.
  assert (Hidx : py_index revs (-1) = Some latest)
    by (rewrite py_index_last; exact Hlast).
  assert (Htruthy : negb (truthy (VList revs)) = false)
    by (destruct revs; [discriminate|reflexivity]).
  apply wp_eq. unfold get_changeset_revisions.
  wp_steps. reflexivity.
Qed.

(** C2 (amended). [get_changeset_revisions] queries the catalog exactly
    when no revision is pinned or [force_latest_revision] is set: with a
    pinned revision and [force_latest_revision] false the dictionary is
    returned as it is and no call is made; with [changeset_revision]
    [None] or [force_latest_revision] true, on a dictionary that has
    [tool_shed_url], [name] and [owner] and a catalog that lists at least
    one installable revision, the catalog is queried once and the field
    is set to the last revision of its list. *)
Theorem get_changeset_revisions_queries_unless_pinned repository d s :
  heap s !! repository = Some d →
  (is_None (dict_get d "changeset_revision") = false →
   get_changeset_revisions env repository false s = (Ret repository, s)) ∧
  (∀ force url name owner revs latest,
     is_None (dict_get d "changeset_revision") || force = true →
     d !! "tool_shed_url" = Some url →
     d !! "name" = Some name →
     d !! "owner" = Some owner →
     get_ordered_installable_revisions env url name owner = Ret revs →
     last revs = Some latest →
     get_changeset_revisions env repository force s =
       (Ret repository,
        {| heap := <[repository := <["changeset_revision" := latest]> d]> (heap s);
           trace := trace s ++ [EvCatalog url name owner (Ret revs)];
           ticks := ticks s |})).
Proof.
  intros Hd. split.
  - apply get_changeset_revisions_pinned, Hd.
  - intros force url name owner revs latest.
    apply get_changeset_revisions_resolved, Hd.
Qed.
End GetChangesetRevisions.

Lemma get_changeset_revisions_queries_unless_pinned_witness :
  let env := sample_services (Ret [VStr "r1"; VStr "r2"]) in
  let s := state_of {[ 1%positive := unpinned_repository ]} in
  get_changeset_revisions env 1%positive false s =
    (Ret 1%positive,
     {| heap := <[1%positive := <["changeset_revision" := VStr "r2"]> unpinned_repository]>
                  (heap s);
        trace := [EvCatalog (VStr "https://toolshed.g2.bx.psu.edu/") (VStr "bwa")
                    (VStr "devteam") (Ret [VStr "r1"; VStr "r2"])];
        ticks := 0 |}).
Proof.
  intros env s.
  refine (proj2 (get_changeset_revisions_queries_unless_pinned env 1%positive
                   unpinned_repository s _) false _ _ _ _ _ _ _ _ _ _ _);
    reflexivity.
Defined.

(** C2, as stated, fails: a pinned revision does not keep the catalog from
    being queried when [force_latest_revision] is set, and the pin is
    overwritten. *)
Lemma get_changeset_revisions_forced_overrides_pin :
  let env := sample_services (Ret [VStr "r1"; VStr "r2"]) in
  let s := state_of {[ 1%positive := pinned_repository ]} in
  let run := get_changeset_revisions env 1%positive true s in
  dict_get pinned_repository "changeset_revision" = VStr "pinned" ∧
  run.1 = Ret 1%positive ∧
  trace run.2 = [EvCatalog (VStr "https://toolshed.g2.bx.psu.edu/") (VStr "bwa")
                   (VStr "devteam") (Ret [VStr "r1"; VStr "r2"])] ∧
  heap run.2 !! 1%positive ≫= (λ d : dict, d !! "changeset_revision") = Some (VStr "r2") ∧
  run ≠ (Ret 1%positive, s).
Proof.
  cbv zeta. repeat split; try (vm_compute; reflexivity).
  intros H. apply (f_equal (λ x, trace x.2)) in H. vm_compute in H. discriminate.
Qed.

Local Open Scope list_scope.

(** ** complete_repo_information *)

Lemma objects_kept_refl s : objects_kept s s.
Proof. intros l _. reflexivity. Qed.

Lemma objects_kept_fresh s r d' t n :
  heap s !! r = None →
  objects_kept s {| heap := <[r := d']> (heap s); trace := t; ticks := n |}.
Proof.
  intros Hr l [x Hl]. cbn [heap].
  rewrite lookup_insert_ne; [reflexivity|]. intros ->. congruence.
Qed.




Lemma py_iter_raises v e : py_iter v = Raise e → e = Exn TypeError MsgNone.
Proof. destruct v; cbn; congruence. Qed.


Lemma propagated_here ev evs e : event_raised ev = Some e → propagated (ev :: evs) e.
Proof. intros H. exists ev. split; [left|exact H]. Qed.

Lemma propagated_further ev evs e : propagated evs e → propagated (ev :: evs) e.
Proof. intros (ev' & Hin & H). exists ev'. split; [right; exact Hin|exact H]. Qed.


Ltac find_raiser :=
  first [ apply propagated_here; reflexivity
        | apply propagated_further; find_raiser ].

Section CompleteRepoInformation.
Context (env : services).



End CompleteRepoInformation.




(** ** flatten_repo_info *)

Lemma lookup_foldl_copy_item (items : list (string * value)) :
  ∀ (acc : dict) k,
  NoDup items.*1 →
  foldl copy_item acc items !! k =
    match (list_to_map items : dict) !! k with
    | Some v => if bool_decide (k ∈ VALID_KEYS) then Some v else acc !! k
    | None => acc !! k
    end.
Proof.
  induction items as [|[k0 v0] items IH]; intros acc k Hnd; cbn [foldl].
  - rewrite list_to_map_nil, lookup_empty. reflexivity.
  - cbn [fmap list_fmap fst] in Hnd. apply NoDup_cons in Hnd as [Hk0 Hnd].
    rewrite IH by exact Hnd. rewrite list_to_map_cons.
    destruct (decide (k = k0)) as [->|Hne].
    + rewrite lookup_insert_eq.
      rewrite (not_elem_of_list_to_map_1 (M := gmap string) items k0 Hk0).
      unfold copy_item. cbn [fst snd].
      destruct (bool_decide (k0 ∈ VALID_KEYS)); [apply lookup_insert_eq|reflexivity].
    + rewrite (lookup_insert_ne (M := gmap string)) by congruence.
      assert (copy_item acc (k0, v0) !! k = acc !! k) as ->; [|reflexivity].
      unfold copy_item. cbn [fst snd].
      destruct (bool_decide (k0 ∈ VALID_KEYS)); [|reflexivity].
      apply lookup_insert_ne. congruence.
Qed.

(** The loop copies exactly the valid part. *)
Lemma foldl_copy_item_valid_part (d : dict) :
  foldl copy_item ∅ (map_to_list d) = valid_part d.
Proof.
  apply map_eq. intros k.
  rewrite lookup_foldl_copy_item by apply NoDup_fst_map_to_list.
  rewrite list_to_map_to_list, lookup_empty.
  unfold valid_part.
  destruct (d !! k) as [v|] eqn:Hk.
  - destruct (bool_decide (k ∈ VALID_KEYS)) eqn:Hv.
    + symmetry. apply map_lookup_filter_Some. split; [exact Hk|].
      apply bool_decide_eq_true in Hv. exact Hv.
    + symmetry. apply map_lookup_filter_None. right. intros v' _ Hin.
      apply bool_decide_eq_false in Hv. exact (Hv Hin).
  - symmetry. apply map_lookup_filter_None. left. exact Hk.
Qed.

Lemma valid_part_lookup_Some (d : dict) k v :
  valid_part d !! k = Some v → k ∈ VALID_KEYS ∧ d !! k = Some v.
Proof.
  unfold valid_part. intros H. apply map_lookup_filter_Some in H as [H1 H2].
  split; assumption.
Qed.

Lemma heap_only_refl s : heap_only s s.
Proof. split; [apply objects_kept_refl|split; reflexivity]. Qed.

Lemma heap_only_trans s1 s2 s3 : heap_only s1 s2 → heap_only s2 s3 → heap_only s1 s3.
Proof.
  intros (Hk1 & Ht1 & Hn1) (Hk2 & Ht2 & Hn2). split; [|split; congruence].
  intros l Hl. rewrite Hk2; [apply Hk1, Hl|]. rewrite Hk1; exact Hl.
Qed.

Lemma heap_only_fresh s r d' :
  heap s !! r = None →
  heap_only s {| heap := <[r := d']> (heap s); trace := trace s; ticks := ticks s |}.
Proof. intros Hr. split; [apply objects_kept_fresh, Hr|split; reflexivity]. Qed.

Lemma wp_copy_valid_keys n items :
  ∀ d0 s,
  heap s !! n = Some d0 →
  wp (copy_valid_keys n items)
    (λ _ s', s' = {| heap := <[n := foldl copy_item d0 items]> (heap s);
                     trace := trace s; ticks := ticks s |})
    (λ _ _, False) s.
Proof.
  unfold copy_valid_keys.
  induction items as [|[k v] items IH]; intros d0 s Hn; cbn [for_fold foldl].
  - apply wp_ret. rewrite insert_id by exact Hn. destruct s; reflexivity.
  - apply wp_bind. unfold copy_item at 2. cbn [fst snd].
    destruct (bool_decide (k ∈ VALID_KEYS)).
    + eapply wp_store; [exact Hn|]. cbv beta.
      eapply wp_mono; [apply (IH (<[k := v]> d0)); wp_lookup| |auto].
      intros _ s' ->. wp_state. rewrite insert_insert_eq. reflexivity.
    + apply wp_ret. apply IH, Hn.
Qed.

(** Lines 114-120: each revision gets a new dictionary, a copy of
    [new_repo_info] with the revision put in. *)
Lemma wp_append_revisions n dn revs :
  ∀ acc s,
  heap s !! n = Some dn →
  wp (append_revisions n revs acc)
    (λ out s',
       ∃ locs,
         out = acc ++ locs ∧
         Forall2 (λ l r, heap s' !! l = Some (<["changeset_revision" := r]> dn)) locs revs ∧
         NoDup locs ∧ Forall (λ l, heap s !! l = None) locs ∧
         heap_only s s')
    (λ _ _, False) s.
Proof.
  unfold append_revisions.
  induction revs as [|rev revs IH]; intros acc s Hn; cbn [for_fold].
  - apply wp_ret. exists []. rewrite app_nil_r.
    repeat split; auto using heap_only_refl, NoDup_nil_2.
  - wp_steps.
    assert (Hrn : r ≠ n) by (intros ->; congruence).
    eapply wp_mono; [apply IH; wp_lookup| |auto].
    intros out s' (locs & -> & Hlocs & Hnd & Hnew & Hkept). cbv beta.
    cbn [heap] in Hnew.
    exists (r :: locs). split; [rewrite <- app_assoc; reflexivity|].
    assert (Hr : r ∉ locs).
    { intros Hin. rewrite Forall_forall in Hnew. specialize (Hnew r Hin).
      rewrite lookup_insert_eq in Hnew. discriminate. }
    split; [|split; [|split]].
    + constructor; [|exact Hlocs].
      destruct Hkept as (Hk & _).
      rewrite Hk; [wp_lookup|wp_state; rewrite lookup_insert_eq; eauto].
    + apply NoDup_cons. split; assumption.
    + constructor; [exact Hfresh|].
      eapply Forall_impl; [exact Hnew|]. intros l Hl. cbv beta in Hl.
      apply lookup_insert_None in Hl as [Hl _]. exact Hl.
    + eapply heap_only_trans; [|exact Hkept]. apply heap_only_fresh, Hfresh.
Qed.

Lemma wp_flatten_one acc repo_info d s :
  heap s !! repo_info = Some d →
  wp (flatten_one acc repo_info)
    (λ out s', ∃ locs xs,
       entries d = Ret xs ∧ out = acc ++ locs ∧ holds s s' locs xs ∧ heap_only s s')
    (λ e s', entries d = Raise e ∧ heap_only s s')
    s.
Proof.
  intros Hd. unfold flatten_one, entries.
  wp_steps.
  assert (Hr : r ≠ repo_info) by (intros ->; congruence).
  eapply wp_mono;
    [apply (wp_copy_valid_keys r (map_to_list d) ∅); wp_lookup| |intros ? ? []].
  intros _ s1 ->. wp_state.
  rewrite insert_insert_eq, foldl_copy_item_valid_part.
  do 2 wp_step.
  destruct (d !! "revisions") as [revisions|] eqn:Hrev.
  - rewrite bool_decide_eq_true_2 by eauto.
    do 2 wp_step. unfold dict_get_default. rewrite Hrev.
    change (default (VList []) (Some revisions)) with revisions.
    wp_steps.
    all: wp_rewrite.
    + exists [r], [valid_part d]. split; [reflexivity|]. split; [reflexivity|].
      split; [|apply heap_only_fresh, Hfresh].
      repeat split.
      * constructor; [wp_lookup|constructor].
      * apply NoDup_singleton.
      * constructor; [exact Hfresh|constructor].
    + eapply wp_mono;
        [apply (wp_append_revisions r (valid_part d)); wp_lookup| |intros ? ? []].
      intros out s' (locs & -> & Hlocs & Hnd & Hnew & Hkept). cbv beta.
      cbn [heap] in Hnew.
      exists locs, ((λ r, <["changeset_revision" := r]> (valid_part d)) <$> a).
      split; [reflexivity|]. split; [reflexivity|]. split.
      * repeat split; [|exact Hnd|].
        -- apply Forall2_fmap_r. exact Hlocs.
        -- eapply Forall_impl; [exact Hnew|]. intros l Hl. cbv beta in Hl.
           apply lookup_insert_None in Hl as [Hl _]. exact Hl.
      * eapply heap_only_trans; [|exact Hkept]. apply heap_only_fresh, Hfresh.
    + split; [reflexivity|]. apply heap_only_fresh, Hfresh.
  - rewrite bool_decide_eq_false_2 by (intros [? ?]; discriminate).
    wp_steps.
    exists [r], [valid_part d]. split; [reflexivity|]. split; [reflexivity|].
    split; [|apply heap_only_fresh, Hfresh].
    repeat split.
    + constructor; [wp_lookup|constructor].
    + apply NoDup_singleton.
    + constructor; [exact Hfresh|constructor].
Qed.

Lemma heap_only_None s s' l : heap_only s s' → heap s' !! l = None → heap s !! l = None.
Proof.
  intros (Hk & _) Hl. destruct (heap s !! l) as [x|] eqn:Hx; [|reflexivity].
  rewrite Hk in Hl by eauto. congruence.
Qed.

Lemma holds_live s s' locs xs l : holds s s' locs xs → l ∈ locs → is_Some (heap s' !! l).
Proof.
  intros (H & _) Hin. apply list_elem_of_lookup in Hin as [i Hi].
  destruct (Forall2_lookup_l _ _ _ _ _ H Hi) as (x & _ & Hx). eauto.
Qed.

Lemma holds_app s s1 s2 locs1 xs1 locs2 xs2 :
  holds s s1 locs1 xs1 → heap_only s s1 →
  holds s1 s2 locs2 xs2 → heap_only s1 s2 →
  holds s s2 (locs1 ++ locs2) (xs1 ++ xs2).
Proof.
  intros H1 Hk1 H2 Hk2.
  pose proof (λ l, holds_live _ _ _ _ l H1) as Hlive.
  destruct H1 as (H1 & Hnd1 & Hnew1). destruct H2 as (H2 & Hnd2 & Hnew2).
  split; [|split].
  - apply Forall2_app; [|exact H2].
    eapply Forall2_impl; [exact H1|]. intros l x Hl. cbv beta in *.
    destruct Hk2 as (Hk2 & _). rewrite Hk2; eauto.
  - apply NoDup_app. split; [exact Hnd1|]. split; [|exact Hnd2].
    intros l Hin1 Hin2.
    rewrite Forall_forall in Hnew2. specialize (Hnew2 l Hin2).
    destruct (Hlive l Hin1) as [x Hx]. congruence.
  - apply Forall_app. split; [exact Hnew1|].
    eapply Forall_impl; [exact Hnew2|]. intros l Hl.
    eapply heap_only_None; eassumption.
Qed.

Lemma wp_flatten_loop repos :
  ∀ dicts acc s,
  Forall2 (λ l d, heap s !! l = Some d) repos dicts →
  wp (for_fold repos acc flatten_one)
    (λ out s', ∃ locs xs,
       all_entries dicts = Ret xs ∧ out = acc ++ locs ∧ holds s s' locs xs ∧
       heap_only s s')
    (λ e s', all_entries dicts = Raise e ∧ heap_only s s')
    s.
Proof.
  induction repos as [|repo repos IH]; intros dicts acc s Hlive;
    inversion Hlive as [|? d ? dicts' Hd Hrest]; subst; cbn [for_fold all_entries].
  - apply wp_ret. exists [], []. rewrite app_nil_r.
    repeat split; auto using heap_only_refl, NoDup_nil_2.
  - apply wp_bind.
    eapply wp_mono; [apply (wp_flatten_one acc repo d s Hd)| |].
    + intros out s1 (locs1 & xs1 & Hxs1 & -> & H1 & Hk1). cbv beta.
      rewrite Hxs1.
      eapply wp_mono; [apply (IH dicts')| |].
      * eapply Forall2_impl; [exact Hrest|]. intros l x Hl. cbv beta in *.
        destruct Hk1 as (Hk1 & _). rewrite Hk1; eauto.
      * intros out s2 (locs2 & xs2 & Hxs2 & -> & H2 & Hk2). cbv beta.
        rewrite Hxs2. exists (locs1 ++ locs2), (xs1 ++ xs2).
        split; [reflexivity|]. split; [rewrite app_assoc; reflexivity|].
        split; [eapply holds_app; eassumption|].
        eapply heap_only_trans; eassumption.
      * intros e s2 (Hxs2 & Hk2). cbv beta. rewrite Hxs2.
        split; [reflexivity|]. eapply heap_only_trans; eassumption.
    + intros e s1 (Hxs1 & Hk1). cbv beta. rewrite Hxs1. auto.
Qed.

(** What every run of [flatten_repo_info] does. *)
Lemma wp_flatten_repo_info repositories dicts s :
  Forall2 (λ l d, heap s !! l = Some d) repositories dicts →
  wp (flatten_repo_info repositories)
    (λ out s', ∃ xs,
       all_entries dicts = Ret xs ∧ holds s s' out xs ∧ heap_only s s')
    (λ e s', all_entries dicts = Raise e ∧ heap_only s s')
    s.
Proof.
  intros Hlive. unfold flatten_repo_info.
  eapply wp_mono; [apply (wp_flatten_loop repositories dicts [] s Hlive)| |auto].
  intros out s' (locs & xs & Hxs & -> & H & Hk). eauto.
Qed.

(** With a non-empty list of revisions, the i-th entry carries the i-th
    revision. *)
Lemma one_per_revision_lookup d revs i rev :
  d !! "revisions" = Some (VList revs) →
  revs !! i = Some rev →
  length (one_per_revision d) = length revs ∧
  one_per_revision d !! i = Some (<["changeset_revision" := rev]> (valid_part d)).
Proof.
  intros Hd Hi. unfold one_per_revision. rewrite Hd.
  destruct revs as [|rev0 revs]; [discriminate|].
  split; [apply length_fmap|].
  rewrite list_lookup_fmap, Hi. reflexivity.
Qed.




Lemma changeset_revision_valid : "changeset_revision" ∈ VALID_KEYS.
Proof. unfold VALID_KEYS. set_solver. Qed.

Lemma revisions_not_valid : "revisions" ∉ VALID_KEYS.
Proof.
  unfold VALID_KEYS. intros H.
  repeat (apply elem_of_cons in H as [H|H]; [discriminate|]).
  inversion H.
Qed.

Lemma valid_part_only_valid_keys d : only_valid_keys (valid_part d).
Proof. intros k [v Hk]. apply valid_part_lookup_Some in Hk as [Hk _]. exact Hk. Qed.

Lemma insert_only_valid_keys x k v :
  k ∈ VALID_KEYS → only_valid_keys x → only_valid_keys (<[k := v]> x).
Proof.
  intros Hk Hx k' [v' Hk']. apply lookup_insert_Some in Hk' as [[<- _]|[_ Hk']].
  - exact Hk.
  - apply Hx. eauto.
Qed.

Lemma entries_only_valid_keys d xs : entries d = Ret xs → Forall only_valid_keys xs.
Proof.
  unfold entries. intros H.
  assert (Hone : Forall only_valid_keys [valid_part d])
    by (constructor; [apply valid_part_only_valid_keys|constructor]).
  destruct (d !! "revisions") as [revisions|]; [|injection H as <-; exact Hone].
  destruct (negb (truthy revisions)); [injection H as <-; exact Hone|].
  destruct (py_iter revisions) as [revs|]; [|discriminate].
  injection H as <-. apply Forall_fmap, Forall_true. intros r.
  apply insert_only_valid_keys;
    [apply changeset_revision_valid|apply valid_part_only_valid_keys].
Qed.

Lemma all_entries_only_valid_keys dicts :
  ∀ xs, all_entries dicts = Ret xs → Forall only_valid_keys xs.
Proof.
  induction dicts as [|d dicts IH]; intros xs H; cbn [all_entries] in H.
  - injection H as <-. constructor.
  - destruct (entries d) as [ys|] eqn:Hd; [|discriminate].
    destruct (all_entries dicts) as [zs|]; [|discriminate].
    injection H as <-. apply Forall_app. split.
    + eapply entries_only_valid_keys, Hd.
    + apply IH. reflexivity.
Qed.

(** C10. Every dictionary [flatten_repo_info] returns has keys from
    [VALID_KEYS] only: a key outside the list, [revisions] among them, is
    absent from every entry of the result. *)
Theorem flatten_repo_info_only_valid_keys repositories dicts s out s' :
  Forall2 (λ l d, heap s !! l = Some d) repositories dicts →
  flatten_repo_info repositories s = (Ret out, s') →
  ∀ l, l ∈ out →
    ∃ x, heap s' !! l = Some x ∧
         (∀ k, is_Some (x !! k) → k ∈ VALID_KEYS) ∧
         (∀ k, k ∉ VALID_KEYS → x !! k = None) ∧
         x !! "revisions" = None.
Proof.
  intros Hlive Hrun l Hin.
  pose proof (wp_run _ _ _ _ _ _ (wp_flatten_repo_info repositories dicts s Hlive) Hrun)
    as (xs & Hxs & (Hout & _ & _) & _).
  apply all_entries_only_valid_keys in Hxs.
  apply list_elem_of_lookup in Hin as [i Hi].
  destruct (Forall2_lookup_l _ _ _ _ _ Hout Hi) as (x & Hx & Hlx).
  exists x. split; [exact Hlx|].
  assert (Hvalid : only_valid_keys x).
  { rewrite Forall_forall in Hxs. apply Hxs. eapply list_elem_of_lookup_2, Hx. }
  assert (Hnone : ∀ k, k ∉ VALID_KEYS → x !! k = None).
  { intros k Hk. destruct (x !! k) eqn:Hxk; [|reflexivity].
    exfalso. apply Hk, Hvalid. eauto. }
  split; [exact Hvalid|]. split; [exact Hnone|].
  apply Hnone, revisions_not_valid.
Qed.

Example flatten_repo_info_two_repos :
  (flatten_repo_info [1%positive; 2%positive] two_repos).1 =
    Ret [4%positive; 5%positive; 6%positive].
Proof. vm_compute. reflexivity. Qed.


Lemma flatten_repo_info_only_valid_keys_witness :
  ∃ x, heap (flatten_repo_info [1%positive; 2%positive] two_repos).2 !! 5%positive = Some x ∧
       (∀ k, is_Some (x !! k) → k ∈ VALID_KEYS) ∧
       (∀ k, k ∉ VALID_KEYS → x !! k = None) ∧
       x !! "revisions" = None.
Proof.
  apply (flatten_repo_info_only_valid_keys
           [1%positive; 2%positive] [multi_revision_repo; plain_repo] two_repos
           [4%positive; 5%positive; 6%positive]
           (flatten_repo_info [1%positive; 2%positive] two_repos).2).
  - repeat constructor.
  - vm_compute. reflexivity.
  - set_solver.
Defined.

(** ** verify_tool_keep_history *)

(** *** Rules for the [try] statement and the calls *)

Lemma wp_world {A} (m : M state A) (Q : A → vstate → Prop) E (s : vstate) :
  wp m (λ a w, Q a (w, s.2)) (λ e w, E e (w, s.2)) s.1 → wp (world m) Q E s.
Proof. unfold wp, world. cbn [fst snd]. destruct (m s.1) as [[a|e] w]; exact id. Qed.

Lemma wp_read_locals (Q : locals → vstate → Prop) E (s : vstate) :
  Q s.2 s → wp read_locals Q E s.
Proof. exact id. Qed.

Lemma wp_assign f (Q : unit → vstate → Prop) E (s : vstate) :
  Q tt (s.1, f s.2) → wp (assign f) Q E s.
Proof. exact id. Qed.

Lemma wp_with_locals {A} init (m : M vstate A) (Q : A → state → Prop) E w :
  wp m (λ a s, Q a s.1) (λ e s, E e s.1) (w, init) → wp (with_locals init m) Q E w.
Proof. unfold wp, with_locals. destruct (m (w, init)) as [[a|e] s]; exact id. Qed.

Lemma wp_call_time env (Q : float → state → Prop) E s :
  Q (time_time env (ticks s))
    {| heap := heap s; trace := trace s; ticks := S (ticks s) |} →
  wp (call_time env) Q E s.
Proof. exact id. Qed.

Lemma wp_call_get_tool_tests gi tool_id tool_version (Q : list loc → state → Prop) E s :
  match get_tool_tests gi tool_id tool_version with
  | Ret tests => Q tests (log (EvGetToolTests tool_id tool_version (Ret tests)) s)
  | Raise e => E e (log (EvGetToolTests tool_id tool_version (Raise e)) s)
  end →
  wp (call_get_tool_tests gi tool_id tool_version) Q E s.
Proof.
  unfold wp, call_get_tool_tests.
  destruct (get_tool_tests gi tool_id tool_version); exact id.
Qed.

Lemma wp_call_ToolTestDescription env d (Q : testdef → state → Prop) E s :
  match ToolTestDescription env d with
  | Ret td => Q td (log (EvToolTestDescription d (Ret td)) s)
  | Raise e => E e (log (EvToolTestDescription d (Raise e)) s)
  end →
  wp (call_ToolTestDescription env d) Q E s.
Proof.
  unfold wp, call_ToolTestDescription. destruct (ToolTestDescription env d); exact id.
Qed.

Lemma wp_call_handle_def_errors env td (Q : unit → state → Prop) E s :
  match _handle_def_errors env td with
  | None => Q tt (log (EvHandleDefErrors td None) s)
  | Some e => E e (log (EvHandleDefErrors td (Some e)) s)
  end →
  wp (call_handle_def_errors env td) Q E s.
Proof.
  unfold wp, call_handle_def_errors. destruct (_handle_def_errors env td); exact id.
Qed.

Lemma wp_call_new_history gi (Q : value → state → Prop) E s :
  match new_history gi with
  | Ret h => Q h (log (EvNewHistory (Ret h)) s)
  | Raise e => E e (log (EvNewHistory (Raise e)) s)
  end →
  wp (call_new_history gi) Q E s.
Proof. unfold wp, call_new_history. destruct (new_history gi); exact id. Qed.

Lemma wp_call_stage_data_in_history env tool_id data history fpp maxseconds
    (Q : unit → state → Prop) E s :
  match stage_data_in_history env tool_id data history fpp maxseconds with
  | None => Q tt (log (EvStage tool_id history None) s)
  | Some e => E e (log (EvStage tool_id history (Some e)) s)
  end →
  wp (call_stage_data_in_history env tool_id data history fpp maxseconds) Q E s.
Proof.
  unfold wp, call_stage_data_in_history.
  destruct (stage_data_in_history env tool_id data history fpp maxseconds); exact id.
Qed.

Lemma wp_call_run_tool gi td history rp (Q : tool_response → state → Prop) E s :
  match run_tool gi td history rp with
  | Ret resp => Q resp (log (EvRunTool td history (Ret resp)) s)
  | Raise e => E e (log (EvRunTool td history (Raise e)) s)
  end →
  wp (call_run_tool gi td history rp) Q E s.
Proof. unfold wp, call_run_tool. destruct (run_tool gi td history rp); exact id. Qed.

Lemma wp_call_verify_outputs env td history jobs tool_id dl dcl quiet
    (Q : value → state → Prop) E s :
  match _verify_outputs env td history jobs tool_id dl dcl quiet with
  | Ret stdio => Q stdio (log (EvVerifyOutputs td history (Ret stdio)) s)
  | Raise e => E e (log (EvVerifyOutputs td history (Raise e)) s)
  end →
  wp (call_verify_outputs env td history jobs tool_id dl dcl quiet) Q E s.
Proof.
  unfold wp, call_verify_outputs.
  destruct (_verify_outputs env td history jobs tool_id dl dcl quiet); exact id.
Qed.

Lemma wp_call_register_job_data register job_data (Q : unit → state → Prop) E s :
  match register job_data with
  | None => Q tt (log (EvRegister job_data None) s)
  | Some e => E e (log (EvRegister job_data (Some e)) s)
  end →
  wp (call_register_job_data register job_data) Q E s.
Proof. unfold wp, call_register_job_data. destruct (register job_data); exact id. Qed.

Ltac wp_locals :=
  cbn [tool_inputs job_stdio job_output_exceptions tool_execution_exception
       expected_failure_occurred data_list test_jobs data_collection_list
       set_tool_inputs set_job_stdio set_job_output_exceptions
       set_tool_execution_exception set_expected_failure_occurred
       set_response initial_locals negb].

Ltac wp_step_verify :=
  cbv beta;
  lazymatch goal with
  | |- wp (world _) _ _ _ => apply wp_world; wp_state
  | |- wp read_locals _ _ _ => apply wp_read_locals; wp_state; wp_locals
  | |- wp (assign _) _ _ _ => apply wp_assign; wp_state
  | |- wp (with_locals _ _) _ _ _ => apply wp_with_locals
  | |- wp (try_except _ _) _ _ _ => apply wp_try_except
  | |- wp (try_finally _ _) _ _ _ => apply wp_try_finally
  | |- wp (call_time _) _ _ _ => apply wp_call_time; wp_state
  | |- wp (call_get_tool_tests _ _ _) _ _ _ => apply wp_call_get_tool_tests
  | |- wp (call_ToolTestDescription _ _) _ _ _ => apply wp_call_ToolTestDescription
  | |- wp (call_handle_def_errors _ _) _ _ _ => apply wp_call_handle_def_errors
  | |- wp (call_new_history _) _ _ _ => apply wp_call_new_history
  | |- wp (call_stage_data_in_history _ _ _ _ _ _) _ _ _ =>
      apply wp_call_stage_data_in_history
  | |- wp (call_run_tool _ _ _ _) _ _ _ => apply wp_call_run_tool
  | |- wp (call_verify_outputs _ _ _ _ _ _ _ _) _ _ _ => apply wp_call_verify_outputs
  | |- wp (call_register_job_data _ _) _ _ _ => apply wp_call_register_job_data
  | |- wp (setdefault _ _ _) _ _ _ => apply wp_setdefault
  | |- wp (load _) _ _ _ => first [eapply wp_load; [wp_lookup|] | apply wp_load_any]
  | |- _ => wp_step
  end.

Ltac wp_steps_verify := repeat wp_step_verify.

(** *** What a run leaves in the trace *)

Section JobData.
Context (env : services) (tool_id tool_version : value) (test_index : Z).
Context (begin_time end_time : float) (l : locals).

Let job_data := build_job_data env tool_id tool_version test_index begin_time end_time l.

Lemma build_job_data_fields :
  job_data !! "tool_id" = Some tool_id ∧
  job_data !! "tool_version" = Some tool_version ∧
  job_data !! "test_index" = Some (VInt test_index) ∧
  job_data !! "time_seconds" = Some (VFloat (PrimFloat.sub end_time begin_time)) ∧
  job_data !! "status" = Some (VStr (status_of l)).
Proof.
  subst job_data. unfold build_job_data, status_of.
  destruct (negb (is_None (tool_inputs l))), (negb (is_None (job_stdio l))),
    (job_output_exceptions l) as [[|? ?]|], (tool_execution_exception l);
    repeat split; wp_dict; reflexivity.
Qed.
End JobData.

(** *** The [try] statement *)

Local Arguments build_job_data : simpl never.

Ltac tried_leaf :=
  match goal with
  | |- tried _ _ _ _ _ _ ?w _ _ =>
      unfold tried; wp_state; rewrite <- ?app_assoc; cbn [app];
      eexists; split; [reflexivity|]; split; [reflexivity|];
      split; [exact I|];
      split; [first [exact I | left; find_raiser | right; reflexivity]|];
      first
        [ split; reflexivity
        | eexists; split; [cbn [last]; repeat f_equal; congruence|];
          split; [reflexivity|]; split; [reflexivity|];
          match goal with
          | |- record_of ?env ?ti ?tv ?ix ?b ?e _ (build_job_data _ _ _ _ _ _ ?l) =>
              destruct (build_job_data_fields env ti tv ix b e l)
                as (? & ? & ? & ? & Hstatus);
              repeat split; try assumption;
              rewrite Hstatus; unfold expected_status, status_of;
              cbn [existsb recorded_execution_problem recorded_output_problems orb
                   tool_execution_exception job_output_exceptions
                   set_tool_inputs set_job_stdio set_job_output_exceptions
                   set_tool_execution_exception set_expected_failure_occurred
                   set_response initial_locals];
              wp_rewrite;
              repeat match goal with
                     | |- context [match ?x with [] => _ | _ :: _ => _ end] =>
                         destruct x
                     end;
              try reflexivity
          end ]
  end.

Section VerifyTry.
Context (env : services) (gi : galaxy_interactor).
Context (tool_id tool_version : value) (test_index : Z).
Context (resource_parameters : dict) (quiet force_path_paste : bool).
Context (maxseconds : value) (td : testdef) (test_history : value).
Context (begin_time : float).

Lemma wp_verify_try register_job_data w :
  wp (with_locals initial_locals
        (verify_try env tool_id gi resource_parameters register_job_data test_index
           tool_version quiet force_path_paste maxseconds td test_history begin_time))
    (λ a, tried env tool_id tool_version test_index register_job_data begin_time w
            (Ret a))
    (λ e, tried env tool_id tool_version test_index register_job_data begin_time w
            (Raise e))
    w.
Proof.
  unfold verify_try, run_tool_step, verify_outputs_step, register_step.
  destruct register_job_data as [register|].
  - wp_steps_verify. all: tried_leaf.
  - wp_steps_verify. all: tried_leaf.
Qed.
End VerifyTry.

(** *** The set-up (lines 141-148) *)

Ltac set_up_leaf :=
  unfold set_up, maxseconds_defaulted; wp_state; rewrite <- ?app_assoc; cbn [app];
  first [ eexists; split; [split; [reflexivity|]|]
        | exists []; split; [split; [symmetry; apply app_nil_r|]|] ];
  [ split; [reflexivity|]; split; [reflexivity|];
    first [ left; reflexivity | right; eauto 10 ]
  | first [ exact I
          | right; left; reflexivity
          | right; right; split; [reflexivity|];
            unfold dangling_test, candidate_tests; eauto 10
          | left; find_raiser ] ].

Section VerifySetup.
Context (env : services) (gi : galaxy_interactor).
Context (tool_id tool_version : value) (test_index : Z).
Context (test_history maxseconds : value) (tool_test_dicts : option (list loc)).

Lemma wp_verify_setup s :
  wp (verify_setup env tool_id gi test_index tool_version test_history maxseconds
        tool_test_dicts)
    (λ _ s1, ∃ evs0, set_up maxseconds s s1 evs0 ∧ True)
    (λ e s1, ∃ evs0, set_up maxseconds s s1 evs0 ∧
               (propagated evs0 e ∨ own_error e = true ∨
                (e = Exn NoSuchObject MsgNone ∧
                 dangling_test gi tool_id tool_version tool_test_dicts test_index s)))
    s.
Proof.
  unfold verify_setup.
  wp_steps_verify.
  all: set_up_leaf.
Qed.
End VerifySetup.

(** *** The whole function *)

Lemma forallb_setup_no_registrations evs0 :
  forallb is_setup_event evs0 = true → registrations evs0 = [].
Proof.
  induction evs0 as [|ev evs0 IH]; [reflexivity|].
  cbn [forallb]. intros H. apply andb_true_iff in H as [Hev H].
  unfold registrations in *. cbn [omap list_omap]. destruct ev; try discriminate; auto.
Qed.



Section VerifyToolKeepHistory.
Context (env : services) (gi : galaxy_interactor).
Context (tool_id tool_version : value) (test_index : Z).
Context (resource_parameters : option dict) (quiet force_path_paste : bool).
Context (test_history maxseconds : value) (tool_test_dicts : option (list loc)).

(** After a set-up that completed, the rest of the function is the
    [try] statement, started one reading of the clock later. *)
Lemma verify_tool_keep_history_after_setup register_job_data s td history s1 :
  verify_setup env tool_id gi test_index tool_version test_history maxseconds
    tool_test_dicts s = (Ret (td, history), s1) →
  ∃ r s' evs0,
    verify_tool_keep_history env tool_id gi resource_parameters register_job_data
      test_index tool_version quiet test_history force_path_paste maxseconds
      tool_test_dicts s = (r, s') ∧
    set_up maxseconds s s1 evs0 ∧
    tried env tool_id tool_version test_index register_job_data
      (time_time env (ticks s))
      {| heap := heap s1; trace := trace s1; ticks := S (ticks s) |} r s'.
Proof.
  intros Hsetup.
  pose proof (wp_run _ _ _ _ _ _ (wp_verify_setup env gi tool_id tool_version
                test_index test_history maxseconds tool_test_dicts s) Hsetup)
    as (evs0 & Hup & _).
  assert (Hticks : ticks s1 = ticks s) by apply Hup.
  assert (wp (verify_tool_keep_history env tool_id gi resource_parameters
                register_job_data test_index tool_version quiet test_history
                force_path_paste maxseconds tool_test_dicts)
            (λ a, tried env tool_id tool_version test_index register_job_data
                    (time_time env (ticks s))
                    {| heap := heap s1; trace := trace s1; ticks := S (ticks s) |}
                    (Ret a))
            (λ e, tried env tool_id tool_version test_index register_job_data
                    (time_time env (ticks s))
                    {| heap := heap s1; trace := trace s1; ticks := S (ticks s) |}
                    (Raise e))
            s) as Hwp.
  { unfold verify_tool_keep_history.
    apply wp_bind. eapply wp_of_run; [exact Hsetup|]. cbv beta iota.
    apply wp_bind, wp_call_time. rewrite Hticks.
    apply wp_verify_try. }
  apply wp_outcome in Hwp as (r & s' & Hrun & Htried). eauto 10.
Qed.


(** C7 (amended). Each invocation of [verify_tool_keep_history] whose
    set-up completes drives one tool test in a fixed order: the input
    data is staged first; if staging returns, the tool is invoked exactly
    once afterwards (and not at all if staging raises); the outputs are
    verified at most once, and only after an invocation that returned;
    the result record is produced last, when [register_job_data] is
    supplied; and the outputs are never verified when the tool
    invocation failed, an expected failure included. *)
Theorem verify_tool_keep_history_drives_one_test register_job_data s td history s1 :
  verify_setup env tool_id gi test_index tool_version test_history maxseconds
    tool_test_dicts s = (Ret (td, history), s1) →
  ∃ r s' evs0 evs,
    verify_tool_keep_history env tool_id gi resource_parameters register_job_data
      test_index tool_version quiet test_history force_path_paste maxseconds
      tool_test_dicts s = (r, s') ∧
    trace s1 = trace s ++ evs0 ∧
    forallb is_setup_event evs0 = true ∧
    trace s' = trace s1 ++ evs ∧
    drives_one_test evs ∧
    match register_job_data with
    | Some register =>
        ∃ job_data, last evs = Some (EvRegister job_data (register job_data))
    | None => registrations evs = []
    end.
Proof.
  intros Hsetup.
  destruct (verify_tool_keep_history_after_setup register_job_data s td history s1
              Hsetup)
    as (r & s' & evs0 & Hrun & (Ht0 & Hevs0 & _ & _) & evs & Ht & _ & Horder & _ & Hreg).
  cbn [trace] in Ht.
  exists r, s', evs0, evs. repeat (split; [assumption|]).
  destruct register_job_data as [register|].
  - destruct Hreg as (job_data & Hlast & _). eauto.
  - apply Hreg.
Qed.
End VerifyToolKeepHistory.


Example verify_tool_keep_history_success :
  let run :=
    verify_tool_keep_history (sample_services (Ret [])) (VStr "bwa")
      (sample_interactor [1%positive]) None (Some accept_job_data) 0 VNone
      false VNone false (VInt DEFAULT_TOOL_TEST_WAIT) None one_test in
  run.1 = Ret tt ∧
  calls is_stage (trace run.2) = 1%nat ∧
  calls is_run_tool (trace run.2) = 1%nat ∧
  calls is_verify_outputs (trace run.2) = 1%nat ∧
  (λ job_data : dict, job_data !! "status") <$> registrations (trace run.2) =
    [Some (VStr "success")].
Proof. cbv zeta. repeat split; vm_compute; reflexivity. Qed.


Lemma verify_tool_keep_history_drives_one_test_witness :
  let env := sample_services (Ret []) in
  let gi := sample_interactor [1%positive] in
  let s1 := (verify_setup env (VStr "bwa") gi 0 VNone VNone
               (VInt DEFAULT_TOOL_TEST_WAIT) None one_test).2 in
  ∃ r s' evs0 evs,
    verify_tool_keep_history env (VStr "bwa") gi None (Some accept_job_data) 0 VNone
      false VNone false (VInt DEFAULT_TOOL_TEST_WAIT) None one_test = (r, s') ∧
    trace s1 = trace one_test ++ evs0 ∧
    forallb is_setup_event evs0 = true ∧
    trace s' = trace s1 ++ evs ∧
    drives_one_test evs ∧
    ∃ job_data, last evs = Some (EvRegister job_data (accept_job_data job_data)).
Proof.
  intros env gi s1.
  apply (verify_tool_keep_history_drives_one_test env gi (VStr "bwa") VNone 0 None
           false false VNone (VInt DEFAULT_TOOL_TEST_WAIT) None (Some accept_job_data)
           one_test {| expect_failure := false; test_data := VNone |} (VStr "history") s1).
  vm_compute. reflexivity.
Defined.

(** C7, as stated, fails: when staging raises, the tool is not invoked at
    all, and the result record is produced all the same. *)
Lemma verify_tool_keep_history_staging_failure_skips_tool :
  let run :=
    verify_tool_keep_history failing_stage_services (VStr "bwa")
      (sample_interactor [1%positive]) None (Some accept_job_data) 0 VNone
      false VNone false (VInt DEFAULT_TOOL_TEST_WAIT) None one_test in
  run.1 = Raise (Exn OtherException (MsgText "upload failed")) ∧
  calls is_stage (trace run.2) = 1%nat ∧
  calls is_run_tool (trace run.2) = 0%nat ∧
  calls is_verify_outputs (trace run.2) = 0%nat ∧
  calls is_register (trace run.2) = 1%nat.
Proof. cbv zeta. repeat split; vm_compute; reflexivity. Qed.

(** ** What the functions change, and what they raise *)



Section Frames.
Context (env : services).


Section Verify.
Context (gi : galaxy_interactor).
Context (tool_id tool_version : value) (test_index : Z).
Context (resource_parameters : option dict) (quiet force_path_paste : bool).
Context (test_history maxseconds : value) (tool_test_dicts : option (list loc)).
Context (register_job_data : option (dict → option exn)).

End Verify.
End Frames.




Section Module.
Context (env : services).


End Module.





(** * Further properties *)

(** ** get_changeset_revisions: failures and repetition *)

Section GetChangesetRevisionsMore.
Context (env : services).

(** X1. A catalog that answers with an empty list makes
    [get_changeset_revisions] raise the [LookupError] of line 82, which
    carries the repository; the catalog was queried once and the
    repository is as it was. *)
Theorem get_changeset_revisions_no_installable_revision
    repository force d url name owner s :
  heap s !! repository = Some d →
  is_None (dict_get d "changeset_revision") || force = true →
  d !! "tool_shed_url" = Some url →
  d !! "name" = Some name →
  d !! "owner" = Some owner →
  get_ordered_installable_revisions env url name owner = Ret [] →
  get_changeset_revisions env repository force s =
    (Raise (Exn LookupError
              (MsgFormatDict "Repo does not exist in tool shed: {0}" d)),
     {| heap := heap s;
        trace := trace s ++ [EvCatalog url name owner (Ret [])];
        ticks := ticks s |}).
Proof.
  intros Hd Hforce Hurl Hname Howner Hcat.
  assert (Hempty : negb (truthy (VList (@nil value))) = true) by reflexivity.
  apply wp_eq. unfold get_changeset_revisions.
  wp_steps. reflexivity.
Qed.


(** X3. An exception of the catalog query leaves
    [get_changeset_revisions] as it is, after the one query, with the
    repository unchanged. *)
Theorem get_changeset_revisions_catalog_failure
    repository force d url name owner e s :
  heap s !! repository = Some d →
  is_None (dict_get d "changeset_revision") || force = true →
  d !! "tool_shed_url" = Some url →
  d !! "name" = Some name →
  d !! "owner" = Some owner →
  get_ordered_installable_revisions env url name owner = Raise e →
  get_changeset_revisions env repository force s =
    (Raise e,
     {| heap := heap s;
        trace := trace s ++ [EvCatalog url name owner (Raise e)];
        ticks := ticks s |}).
Proof.
  intros Hd Hforce Hurl Hname Howner Hcat.
  apply wp_eq. unfold get_changeset_revisions.
  wp_steps. reflexivity.
Qed.

(** X4. Resolving is done once: after a call that wrote a revision other
    than [None] into the repository, a second call that does not force
    the latest revision returns the repository as it is, without a
    query. *)
Theorem get_changeset_revisions_resolved_once
    repository force d url name owner revs latest s :
  heap s !! repository = Some d →
  is_None (dict_get d "changeset_revision") || force = true →
  d !! "tool_shed_url" = Some url →
  d !! "name" = Some name →
  d !! "owner" = Some owner →
  get_ordered_installable_revisions env url name owner = Ret revs →
  last revs = Some latest →
  is_None latest = false →
  ∃ s1,
    get_changeset_revisions env repository force s = (Ret repository, s1) ∧
    heap s1 !! repository = Some (<["changeset_revision" := latest]> d) ∧
    get_changeset_revisions env repository false s1 = (Ret repository, s1).
Proof.
  intros Hd Hforce Hurl Hname Howner Hcat Hlast Hlatest.
  eexists. split; [|split].
  - eapply get_changeset_revisions_resolved; eassumption.
  - cbn [heap]. apply lookup_insert_eq.
  - eapply get_changeset_revisions_pinned.
    + cbn [heap]. apply lookup_insert_eq.
    + rewrite dict_get_insert_eq. exact Hlatest.
Qed.
End GetChangesetRevisionsMore.

(** ** complete_repo_information: the dictionary it builds *)

Lemma dict_get_Some (d : dict) k v : d !! k = Some v → dict_get d k = v.
Proof. intros H. unfold dict_get. rewrite H. reflexivity. Qed.

Lemma normalized_keys d url revision c1 c2 c3 k :
  is_Some (normalized d url revision c1 c2 c3 !! k) ↔ k ∈ VALID_KEYS.
Proof.
  unfold normalized, VALID_KEYS.
  rewrite <- elem_of_dom, !dom_insert_L, dom_empty_L.
  rewrite !elem_of_union, !elem_of_singleton, elem_of_empty.
  rewrite !elem_of_cons, elem_of_nil. tauto.
Qed.

Lemma format_tool_shed_url_value_returns v v' :
  format_tool_shed_url_value v = Ret v' →
  ∃ url, v = VStr url ∧ v' = VStr (format_tool_shed_url url).
Proof. destruct v; cbn; intros [= <-]; eauto. Qed.

Section CompleteRepoInformationMore.
Context (env : services).

(** Every dictionary [complete_repo_information] returns is new and is
    the normalized one, for the tool-shed URL of the tool (or the
    default) and for the pinned revision or the one the catalog gave. *)
Lemma wp_complete_repo_information_normalized tool d s a b c1 c2 c3 f :
  heap s !! tool = Some d →
  wp (complete_repo_information env tool a b c1 c2 c3 f)
    (λ repo s', ∃ url revision,
       repo = fresh (dom (heap s)) ∧
       is_Some (d !! "name") ∧ is_Some (d !! "owner") ∧
       dict_get_default d "tool_shed_url" a = VStr url ∧
       heap s' = <[repo := normalized d url revision c1 c2 c3]> (heap s) ∧
       ticks s' = ticks s ∧
       ((is_None (dict_get d "changeset_revision") || f = false ∧
         revision = dict_get d "changeset_revision" ∧ trace s' = trace s) ∨
        (is_None (dict_get d "changeset_revision") || f = true ∧
         ∃ revs,
           get_ordered_installable_revisions env (VStr (format_tool_shed_url url))
             (dict_get d "name") (dict_get d "owner") = Ret revs ∧
           last revs = Some revision ∧
           trace s' = trace s ++
             [EvCatalog (VStr (format_tool_shed_url url)) (dict_get d "name")
                (dict_get d "owner") (Ret revs)])))
    (λ _ _, True)
    s.
Proof.
  intros Hd.
  unfold complete_repo_information, get_changeset_revisions, normalized.
  remember (fresh (dom (heap s))) as r0 eqn:Hr0.
  apply wp_bind, wp_alloc. rewrite <- Hr0.
  pose proof (fresh_loc_None (heap s)) as Hfresh. rewrite <- Hr0 in Hfresh.
  wp_state.
  wp_steps.
  all: try exact I.
  all: match goal with
       | H : format_tool_shed_url_value _ = Ret _ |- _ =>
           apply format_tool_shed_url_value_returns in H as (url & Hurl & ->)
       end.
  all: repeat match goal with
              | H : ?m !! ?k = Some ?v |- context [dict_get ?m ?k] =>
                  rewrite (dict_get_Some m k v H)
              end.
  all: exists url; eexists; split; [reflexivity|];
    split; [eauto|]; split; [eauto|]; split; [exact Hurl|];
    split; [reflexivity|]; split; [reflexivity|].
  all: first [ left; split; [reflexivity|]; split; reflexivity
             | right; split; [reflexivity|]; eexists; split; [eassumption|];
               split; [|reflexivity]; rewrite <- py_index_last; eassumption ].
Qed.

(** When it gets through: a tool with [name] and [owner] that passes the
    panel check, a tool-shed URL that is a string, and a revision that is
    pinned or that the catalog can give. *)
Lemma complete_repo_information_returns tool d s a b c1 c2 c3 f url :
  heap s !! tool = Some d →
  is_Some (d !! "name") → is_Some (d !! "owner") →
  panel_settled b d →
  dict_get_default d "tool_shed_url" a = VStr url →
  (is_None (dict_get d "changeset_revision") || f = false ∨
   ∃ revs latest,
     get_ordered_installable_revisions env (VStr (format_tool_shed_url url))
       (dict_get d "name") (dict_get d "owner") = Ret revs ∧
     last revs = Some latest) →
  ∃ repo s', complete_repo_information env tool a b c1 c2 c3 f s = (Ret repo, s').
Proof.
  intros Hd [name Hname] [owner Howner] Hpanel Hurl Hrev.
  rewrite (dict_get_Some _ _ _ Hname), (dict_get_Some _ _ _ Howner) in Hrev.
  assert (wp (complete_repo_information env tool a b c1 c2 c3 f)
            (λ _ _, True) (λ _ _, False) s) as Hwp.
  { assert (Hformat : format_tool_shed_url_value (VStr url)
                      = Ret (VStr (format_tool_shed_url url))) by reflexivity.
    unfold complete_repo_information, get_changeset_revisions.
    destruct Hrev as [Hpin|(revs & latest & Hcat & Hlast)].
    - destruct Hpanel as [-> | [Hid | [Hlabel | (name' & Hname' & Hdm)]]].
      4: assert (name' = name) as -> by congruence.
      all: wp_steps; exact I.
    - assert (Hidx : py_index revs (-1) = Some latest)
        by (rewrite py_index_last; exact Hlast).
      assert (Htruthy : negb (truthy (VList revs)) = false)
        by (destruct revs; [discriminate|reflexivity]).
      destruct Hpanel as [-> | [Hid | [Hlabel | (name' & Hname' & Hdm)]]].
      4: assert (name' = name) as -> by congruence.
      all: wp_steps; exact I. }
  apply wp_returns in Hwp as (repo & s' & Hrun & _). eauto.
Qed.
End CompleteRepoInformationMore.
(** ** complete_repo_information: the runs that get through *)

Section CompleteRepoInformationRuns.
Context (env : services).

Lemma state_eq (s : state) h t n :
  heap s = h → trace s = t → ticks s = n →
  s = {| heap := h; trace := t; ticks := n |}.
Proof. destruct s. cbn. intros -> -> ->. reflexivity. Qed.

(** X5. The dictionary [complete_repo_information] returns is a new
    one, its keys are exactly the nine of [VALID_KEYS], whatever other
    keys the tool has, and the tool's dictionary is as it was. *)
Theorem complete_repo_information_keys tool d s a b c1 c2 c3 f repo s' :
  heap s !! tool = Some d →
  complete_repo_information env tool a b c1 c2 c3 f s = (Ret repo, s') →
  heap s !! repo = None ∧ heap s' !! tool = Some d ∧
  ∃ d', heap s' !! repo = Some d' ∧ ∀ k, is_Some (d' !! k) ↔ k ∈ VALID_KEYS.
Proof.
  intros Hd Hrun.
  pose proof (wp_run _ _ _ _ _ _
                (wp_complete_repo_information_normalized env tool d s a b c1 c2 c3 f Hd)
                Hrun)
    as (url & revision & -> & _ & _ & _ & Hheap & _).
  pose proof (fresh_loc_None (heap s)) as Hfresh.
  split; [exact Hfresh|]. rewrite Hheap. split.
  - rewrite lookup_insert_ne; [exact Hd|]. intros E. rewrite E in Hfresh. congruence.
  - eexists. split; [apply lookup_insert_eq|]. apply normalized_keys.
Qed.

(** The run of a call that gets through, in full. *)
Lemma complete_repo_information_run tool d s a b c1 c2 c3 f url revision evs :
  heap s !! tool = Some d →
  is_Some (d !! "name") → is_Some (d !! "owner") →
  panel_settled b d →
  dict_get_default d "tool_shed_url" a = VStr url →
  (is_None (dict_get d "changeset_revision") || f = false ∧
   revision = dict_get d "changeset_revision" ∧ evs = []) ∨
  (is_None (dict_get d "changeset_revision") || f = true ∧
   ∃ revs,
     get_ordered_installable_revisions env (VStr (format_tool_shed_url url))
       (dict_get d "name") (dict_get d "owner") = Ret revs ∧
     last revs = Some revision ∧
     evs = [EvCatalog (VStr (format_tool_shed_url url)) (dict_get d "name")
              (dict_get d "owner") (Ret revs)]) →
  complete_repo_information env tool a b c1 c2 c3 f s =
    (Ret (fresh (dom (heap s))),
     {| heap := <[fresh (dom (heap s)) := normalized d url revision c1 c2 c3]> (heap s);
        trace := trace s ++ evs; ticks := ticks s |}).
Proof.
  intros Hd Hname Howner Hpanel Hurl Hcase.
  destruct (complete_repo_information_returns env tool d s a b c1 c2 c3 f url
              Hd Hname Howner Hpanel Hurl) as (repo & s' & Hrun).
  { destruct Hcase as [(Hpin & _)|(_ & revs & Hcat & Hlast & _)]; eauto. }
  rewrite Hrun.
  pose proof (wp_run _ _ _ _ _ _
                (wp_complete_repo_information_normalized env tool d s a b c1 c2 c3 f Hd)
                Hrun)
    as (url' & revision' & -> & _ & _ & Hurl' & Hheap & Hticks & Hrev).
  assert (url' = url) as -> by congruence.
  f_equal.
  destruct Hcase as [(Hpin & -> & ->)|(Hask & revs & Hcat & Hlast & ->)];
    destruct Hrev as [(Hpin' & -> & Htrace)|(Hask' & revs' & Hcat' & Hlast' & Htrace)];
    try congruence.
  - apply state_eq; [exact Hheap|rewrite app_nil_r; exact Htrace|exact Hticks].
  - assert (revs' = revs) as -> by congruence.
    assert (revision' = revision) as -> by congruence.
    apply state_eq; assumption.
Qed.

(** X6. A pinned revision is kept and the catalog is not asked: for a
    tool with a revision, and no forcing, the call returns the
    normalized dictionary with the tool's own revision, and leaves no
    event in the trace. *)
Theorem complete_repo_information_pinned tool d s a b c1 c2 c3 url :
  heap s !! tool = Some d →
  is_Some (d !! "name") → is_Some (d !! "owner") →
  panel_settled b d →
  dict_get_default d "tool_shed_url" a = VStr url →
  is_None (dict_get d "changeset_revision") = false →
  complete_repo_information env tool a b c1 c2 c3 false s =
    (Ret (fresh (dom (heap s))),
     {| heap := <[fresh (dom (heap s)) :=
                    normalized d url (dict_get d "changeset_revision") c1 c2 c3]>
                  (heap s);
        trace := trace s; ticks := ticks s |}).
Proof.
  intros Hd Hname Howner Hpanel Hurl Hpin.
  pose proof (complete_repo_information_run tool d s a b c1 c2 c3 false url
                (dict_get d "changeset_revision") [] Hd Hname Howner Hpanel Hurl)
    as Hrun.
  rewrite app_nil_r in Hrun. apply Hrun.
  left. rewrite Hpin. auto.
Qed.



End CompleteRepoInformationRuns.
(** *** Runs of the two functions on sample tools *)

Lemma get_changeset_revisions_no_installable_revision_witness :
  get_changeset_revisions (sample_services (Ret [])) 1%positive false
    (state_of {[ 1%positive := unpinned_repository ]}) =
  (Raise (Exn LookupError
            (MsgFormatDict "Repo does not exist in tool shed: {0}" unpinned_repository)),
   {| heap := {[ 1%positive := unpinned_repository ]};
      trace := [EvCatalog (VStr "https://toolshed.g2.bx.psu.edu/") (VStr "bwa")
                  (VStr "devteam") (Ret [])];
      ticks := 0 |}).
Proof.
  refine (get_changeset_revisions_no_installable_revision
            (sample_services (Ret [])) 1%positive false unpinned_repository
            (VStr "https://toolshed.g2.bx.psu.edu/") (VStr "bwa") (VStr "devteam")
            (state_of {[ 1%positive := unpinned_repository ]}) _ _ _ _ _ _);
    reflexivity.
Defined.


Lemma get_changeset_revisions_catalog_failure_witness :
  get_changeset_revisions
    (sample_services (Raise (Exn OtherException (MsgText "connection refused"))))
    1%positive false (state_of {[ 1%positive := unpinned_repository ]}) =
  (Raise (Exn OtherException (MsgText "connection refused")),
   {| heap := {[ 1%positive := unpinned_repository ]};
      trace := [EvCatalog (VStr "https://toolshed.g2.bx.psu.edu/") (VStr "bwa")
                  (VStr "devteam")
                  (Raise (Exn OtherException (MsgText "connection refused")))];
      ticks := 0 |}).
Proof.
  refine (get_changeset_revisions_catalog_failure
           (sample_services (Raise (Exn OtherException (MsgText "connection refused"))))
           1%positive false unpinned_repository
           (VStr "https://toolshed.g2.bx.psu.edu/") (VStr "bwa") (VStr "devteam")
           (Exn OtherException (MsgText "connection refused"))
           (state_of {[ 1%positive := unpinned_repository ]}) _ _ _ _ _ _);
    reflexivity.
Defined.

Lemma get_changeset_revisions_resolved_once_witness :
  ∃ s1,
    get_changeset_revisions (sample_services (Ret [VStr "r1"; VStr "r2"])) 1%positive
      false (state_of {[ 1%positive := unpinned_repository ]}) = (Ret 1%positive, s1) ∧
    heap s1 !! 1%positive =
      Some (<["changeset_revision" := VStr "r2"]> unpinned_repository) ∧
    get_changeset_revisions (sample_services (Ret [VStr "r1"; VStr "r2"])) 1%positive
      false s1 = (Ret 1%positive, s1).
Proof.
  refine (get_changeset_revisions_resolved_once
           (sample_services (Ret [VStr "r1"; VStr "r2"])) 1%positive false
           unpinned_repository
           (VStr "https://toolshed.g2.bx.psu.edu/") (VStr "bwa") (VStr "devteam")
           [VStr "r1"; VStr "r2"] (VStr "r2")
           (state_of {[ 1%positive := unpinned_repository ]}) _ _ _ _ _ _ _ _);
    reflexivity.
Defined.

Lemma complete_repo_information_keys_witness :
  ∃ repo s' d',
    complete_repo_information (sample_services (Ret [])) 1%positive
      (VStr "toolshed.g2.bx.psu.edu") false VNone VNone VNone false
      (state_of {[ 1%positive := bwa_tool ]}) = (Ret repo, s') ∧
    heap (state_of {[ 1%positive := bwa_tool ]}) !! repo = None ∧
    heap s' !! 1%positive = Some bwa_tool ∧
    heap s' !! repo = Some d' ∧
    ∀ k, is_Some (d' !! k) ↔ k ∈ VALID_KEYS.
Proof.
  pose (s := state_of {[ 1%positive := bwa_tool ]}).
  assert (Hlive : heap s !! 1%positive = Some bwa_tool) by reflexivity.
  assert (Hrun : complete_repo_information (sample_services (Ret [])) 1%positive
                   (VStr "toolshed.g2.bx.psu.edu") false VNone VNone VNone false s
                 = (Ret 2%positive,
                    {| heap := <[2%positive :=
                                   normalized bwa_tool "toolshed.g2.bx.psu.edu"
                                     (VStr "abc") VNone VNone VNone]>
                                 {[ 1%positive := bwa_tool ]};
                       trace := []; ticks := 0 |}))
    by (vm_compute; reflexivity).
  destruct (complete_repo_information_keys (sample_services (Ret [])) 1%positive
              bwa_tool s (VStr "toolshed.g2.bx.psu.edu") false VNone VNone VNone false
              _ _ Hlive Hrun) as (Hnew & Htool & d' & Hd' & Hkeys).
  eexists _, _, d'. split; [exact Hrun|]. split; [exact Hnew|].
  split; [exact Htool|]. split; [exact Hd'|exact Hkeys].
Defined.

Lemma complete_repo_information_pinned_witness :
  complete_repo_information (sample_services (Ret [])) 1%positive
    (VStr "toolshed.g2.bx.psu.edu") false VNone VNone VNone false
    (state_of {[ 1%positive := bwa_tool ]}) =
  (Ret 2%positive,
   {| heap := <[2%positive := normalized bwa_tool "toolshed.g2.bx.psu.edu" (VStr "abc")
                                VNone VNone VNone]> {[ 1%positive := bwa_tool ]};
      trace := []; ticks := 0 |}).
Proof.
  refine (complete_repo_information_pinned (sample_services (Ret [])) 1%positive
           bwa_tool (state_of {[ 1%positive := bwa_tool ]})
           (VStr "toolshed.g2.bx.psu.edu") false VNone VNone VNone
           "toolshed.g2.bx.psu.edu" _ _ _ _ _ _).
  - reflexivity.
  - eexists; reflexivity.
  - eexists; reflexivity.
  - left; reflexivity.
  - reflexivity.
  - reflexivity.
Defined.


(** ** flatten_repo_info: flat lists, and what cannot be iterated *)

Lemma only_valid_keys_no_revisions d : only_valid_keys d → d !! "revisions" = None.
Proof.
  intros H. destruct (d !! "revisions") eqn:E; [|reflexivity].
  destruct revisions_not_valid. apply H. rewrite E. eauto.
Qed.

Lemma valid_part_id d : only_valid_keys d → valid_part d = d.
Proof.
  intros H. unfold valid_part. apply map_filter_id.
  intros k v Hk. cbn. apply H. rewrite Hk. eauto.
Qed.

Lemma entries_flat d : only_valid_keys d → entries d = Ret [d].
Proof.
  intros H. unfold entries.
  rewrite (only_valid_keys_no_revisions d H), (valid_part_id d H). reflexivity.
Qed.

Lemma all_entries_flat dicts : Forall only_valid_keys dicts → all_entries dicts = Ret dicts.
Proof.
  induction 1 as [|d dicts Hd _ IH]; [reflexivity|].
  cbn [all_entries]. rewrite (entries_flat d Hd), IH. reflexivity.
Qed.

Lemma entries_raises_TypeError d e : entries d = Raise e → e = Exn TypeError MsgNone.
Proof.
  unfold entries. intros H.
  destruct (d !! "revisions") as [revisions|]; [|discriminate].
  destruct (negb (truthy revisions)); [discriminate|].
  destruct (py_iter revisions) eqn:Hiter; [discriminate|].
  injection H as ->. apply py_iter_raises in Hiter. exact Hiter.
Qed.

Lemma all_entries_raises_TypeError dicts e :
  all_entries dicts = Raise e → e = Exn TypeError MsgNone.
Proof.
  induction dicts as [|d dicts IH]; cbn [all_entries]; [discriminate|].
  destruct (entries d) as [xs|e'] eqn:Hd.
  - destruct (all_entries dicts); [discriminate|]. intros [= ->]. apply IH. reflexivity.
  - intros [= ->]. eapply entries_raises_TypeError, Hd.
Qed.

Lemma all_entries_raises_at dicts d e :
  d ∈ dicts → entries d = Raise e → ∃ e', all_entries dicts = Raise e'.
Proof.
  intros Hin Hd. induction dicts as [|d' dicts IH]; [inversion Hin|].
  cbn [all_entries]. destruct (entries d') as [xs|e'] eqn:Hd'; [|eauto].
  apply elem_of_cons in Hin as [->|Hin]; [congruence|].
  destruct (IH Hin) as [e' ->]. eauto.
Qed.

(** X9. A list that is flat already is copied: repository dictionaries
    whose keys are all among [VALID_KEYS] (so none has [revisions]) give
    one new dictionary each, equal to the one it was made from, in the
    same order. *)
Theorem flatten_repo_info_copies_flat_list repositories dicts s :
  Forall2 (λ l d, heap s !! l = Some d) repositories dicts →
  Forall only_valid_keys dicts →
  ∃ out s',
    flatten_repo_info repositories s = (Ret out, s') ∧
    Forall2 (λ l d, heap s' !! l = Some d) out dicts ∧
    NoDup out ∧
    Forall (λ l, heap s !! l = None) out.
Proof.
  intros Hlive Hflat.
  pose proof (wp_flatten_repo_info repositories dicts s Hlive) as Hwp.
  rewrite (all_entries_flat dicts Hflat) in Hwp.
  assert (wp (flatten_repo_info repositories)
            (λ out s', holds s s' out dicts) (λ _ _, False) s) as Hwp'.
  { eapply wp_mono; [exact Hwp| |].
    - intros out s' (xs & Hxs & H & _). injection Hxs as <-. exact H.
    - intros e s' (Hxs & _). discriminate. }
  apply wp_returns in Hwp' as (out & s' & Hrun & H1 & H2 & H3).
  exists out, s'. auto.
Qed.

(** X10. Flattening twice changes nothing more: the list that
    [flatten_repo_info] returned, given to it again, comes back as new
    dictionaries equal to the ones given, one for one. *)
Theorem flatten_repo_info_idempotent repositories dicts s out s' :
  Forall2 (λ l d, heap s !! l = Some d) repositories dicts →
  flatten_repo_info repositories s = (Ret out, s') →
  ∃ out2 s2,
    flatten_repo_info out s' = (Ret out2, s2) ∧
    Forall2 (λ l l2, is_Some (heap s' !! l) ∧ heap s2 !! l2 = heap s' !! l) out out2 ∧
    NoDup (out ++ out2).
Proof.
  intros Hlive Hrun.
  pose proof (wp_run _ _ _ _ _ _ (wp_flatten_repo_info repositories dicts s Hlive) Hrun)
    as (xs & Hxs & (Hout & Hnodup & _) & _).
  apply all_entries_only_valid_keys in Hxs.
  pose proof (wp_flatten_repo_info out xs s' Hout) as Hwp.
  rewrite (all_entries_flat xs Hxs) in Hwp.
  assert (wp (flatten_repo_info out)
            (λ out2 s2, holds s' s2 out2 xs) (λ _ _, False) s') as Hwp'.
  { eapply wp_mono; [exact Hwp| |].
    - intros out2 s2 (xs' & Hxs' & H & _). injection Hxs' as <-. exact H.
    - intros e s2 (Hxs' & _). discriminate. }
  apply wp_returns in Hwp' as (out2 & s2 & Hrun2 & Hout2 & Hnodup2 & Hnew2).
  exists out2, s2. split; [exact Hrun2|]. split.
  - clear -Hout Hout2. revert out2 Hout2.
    induction Hout as [|l x out xs Hl _ IH]; intros out2 Hout2.
    + inversion Hout2. constructor.
    + inversion Hout2 as [|l2 x' out2' xs' Hl2 Hrest]; subst.
      constructor; [|apply IH; exact Hrest].
      rewrite Hl, Hl2. eauto.
  - apply NoDup_app. split; [exact Hnodup|]. split; [|exact Hnodup2].
    intros l Hl Hl2.
    rewrite Forall_forall in Hnew2. specialize (Hnew2 l Hl2).
    apply list_elem_of_lookup in Hl as [i Hi].
    destruct (Forall2_lookup_l _ _ _ _ _ Hout Hi) as (x & _ & Hx). congruence.
Qed.

(** X11. A [revisions] that is true as a condition and is neither a list
    nor a string cannot be iterated: one such element anywhere in the
    input makes the whole call raise a [TypeError], and no list is
    returned; the objects that were there are as they were. *)
Theorem flatten_repo_info_revisions_not_iterable repositories dicts s d v :
  Forall2 (λ l d, heap s !! l = Some d) repositories dicts →
  d ∈ dicts →
  d !! "revisions" = Some v →
  truthy v = true →
  (∀ l, v ≠ VList l) → (∀ t, v ≠ VStr t) →
  ∃ s',
    flatten_repo_info repositories s = (Raise (Exn TypeError MsgNone), s') ∧
    objects_kept s s' ∧ trace s' = trace s.
Proof.
  intros Hlive Hin Hrevs Htruthy Hlist Hstr.
  assert (Hd : entries d = Raise (Exn TypeError MsgNone)).
  { unfold entries. rewrite Hrevs, Htruthy. cbn [negb].
    destruct v; try reflexivity; [destruct (Hstr s0)|destruct (Hlist l)]; reflexivity. }
  destruct (all_entries_raises_at dicts d _ Hin Hd) as [e He].
  pose proof (all_entries_raises_TypeError dicts e He) as ->.
  pose proof (wp_flatten_repo_info repositories dicts s Hlive) as Hwp.
  rewrite He in Hwp.
  assert (wp (flatten_repo_info repositories) (λ _ _, False)
            (λ e s', e = Exn TypeError MsgNone ∧ heap_only s s') s) as Hwp'.
  { eapply wp_mono; [exact Hwp| |].
    - intros out s' (xs & Hxs & _). discriminate.
    - intros e s' (Hxs & Hk). injection Hxs as <-. auto. }
  apply wp_raises in Hwp' as (e & s' & Hrun & -> & Hkept & Htrace & _).
  eauto.
Qed.

(** X12. A string under [revisions] is taken apart: it is iterated like
    any sequence, so an element whose [revisions] is a non-empty string
    (of ASCII text, for which bytes are characters) gives one entry per
    character, each with that one character as [changeset_revision]. *)
Theorem flatten_repo_info_revisions_string l d s r :
  heap s !! l = Some d →
  d !! "revisions" = Some (VStr r) →
  r ≠ "" →
  Forall (λ c, (Ascii.nat_of_ascii c < 128)%nat) (String.list_ascii_of_string r) →
  ∃ out s',
    flatten_repo_info [l] s = (Ret out, s') ∧
    length out = String.length r ∧
    Forall2 (λ o c, heap s' !! o =
                      Some (<["changeset_revision" := VStr (String c "")]> (valid_part d)))
      out (String.list_ascii_of_string r).
Proof.
  intros Hd Hrevs Hr _.
  assert (Hlive : Forall2 (λ l d, heap s !! l = Some d) [l] [d])
    by (constructor; [exact Hd|constructor]).
  pose proof (wp_flatten_repo_info [l] [d] s Hlive) as Hwp.
  assert (Hentries : all_entries [d] =
            Ret ((λ c, <["changeset_revision" := VStr (String c "")]> (valid_part d))
                   <$> String.list_ascii_of_string r)).
  { cbn [all_entries]. unfold entries. rewrite Hrevs.
    destruct r as [|c r]; [congruence|]. cbn [truthy negb py_iter].
    change (String.eqb (String c r) "") with false. cbn [negb].
    rewrite app_nil_r, <- list_fmap_compose. reflexivity. }
  rewrite Hentries in Hwp.
  assert (wp (flatten_repo_info [l])
            (λ out s', holds s s' out
               ((λ c, <["changeset_revision" := VStr (String c "")]> (valid_part d))
                  <$> String.list_ascii_of_string r)) (λ _ _, False) s) as Hwp'.
  { eapply wp_mono; [exact Hwp| |].
    - intros out s' (xs & Hxs & H & _). injection Hxs as <-. exact H.
    - intros e s' (Hxs & _). discriminate. }
  apply wp_returns in Hwp' as (out & s' & Hrun & Hout & _ & _).
  exists out, s'. split; [exact Hrun|]. split.
  - rewrite (Forall2_length _ _ _ Hout), length_fmap.
    clear. induction r as [|c r IH]; [reflexivity|]. cbn. rewrite IH. reflexivity.
  - apply Forall2_fmap_r in Hout. exact Hout.
Qed.
(** ** flatten_repo_info: one element after the other *)

Lemma bind_run {S A B} (m : M S A) (k : A → M S B) s :
  bind m k s = match m s with
               | (Ret a, s') => k a s'
               | (Raise e, s') => (Raise e, s')
               end.
Proof. reflexivity. Qed.

Lemma for_fold_app {S A B} (l1 l2 : list A) (acc : B) (body : B → A → M S B) s :
  for_fold (l1 ++ l2) acc body s =
  (let* acc' := for_fold l1 acc body in for_fold l2 acc' body) s.
Proof.
  revert acc s. induction l1 as [|x l1 IH]; intros acc s; [reflexivity|].
  cbn [app for_fold]. rewrite !bind_run.
  destruct (body acc x s) as [[acc'|e] s']; [|reflexivity].
  rewrite IH, bind_run. reflexivity.
Qed.

(** The list built so far is only ever appended to. *)
Lemma append_revisions_acc n revs acc s :
  append_revisions n revs acc s =
  match append_revisions n revs [] s with
  | (Ret out, s') => (Ret (acc ++ out), s')
  | (Raise e, s') => (Raise e, s')
  end.
Proof.
  unfold append_revisions. revert acc s.
  induction revs as [|r revs IH]; intros acc s.
  - cbn [for_fold]. unfold ret. rewrite app_nil_r. reflexivity.
  - cbn [for_fold]. rewrite !(bind_run _ (λ acc', for_fold revs acc' _)).
    assert (Hbody : ∀ acc0,
      (let* d := load n in
       let* new_revision_dict := alloc d in
       store new_revision_dict "changeset_revision" r ;;;
       ret (acc0 ++ [new_revision_dict])) s =
      match (let* d := load n in
             let* new_revision_dict := alloc d in
             store new_revision_dict "changeset_revision" r ;;;
             ret new_revision_dict) s with
      | (Ret l, s') => (Ret (acc0 ++ [l]), s')
      | (Raise e, s') => (Raise e, s')
      end).
    { intros acc0. rewrite !bind_run.
      destruct (load n s) as [[d|e] s1]; [|reflexivity].
      rewrite !bind_run.
      destruct (alloc d s1) as [[l|e] s2]; [|reflexivity].
      rewrite !bind_run.
      destruct (store l "changeset_revision" r s2) as [[[]|e] s3]; reflexivity. }
    rewrite (Hbody acc), (Hbody []).
    destruct ((let* d := load n in
               let* new_revision_dict := alloc d in
               store new_revision_dict "changeset_revision" r ;;;
               ret new_revision_dict) s) as [[l|e] s']; [|reflexivity].
    rewrite (IH (acc ++ [l])), (IH ([] ++ [l])).
    destruct (for_fold revs [] _ s') as [[out|e] s'']; [|reflexivity].
    rewrite <- app_assoc. reflexivity.
Qed.

Lemma flatten_one_acc acc repo_info s :
  flatten_one acc repo_info s =
  match flatten_one [] repo_info s with
  | (Ret out, s') => (Ret (acc ++ out), s')
  | (Raise e, s') => (Raise e, s')
  end.
Proof.
  unfold flatten_one. rewrite !bind_run.
  destruct (alloc ∅ s) as [[n|e] s1]; [|reflexivity].
  rewrite !bind_run. destruct (load repo_info s1) as [[d|e] s2]; [|reflexivity].
  rewrite !bind_run.
  destruct (copy_valid_keys n (map_to_list d) s2) as [[[]|e] s3]; [|reflexivity].
  rewrite !bind_run. destruct (load repo_info s3) as [[d'|e] s4]; [|reflexivity].
  destruct (bool_decide (is_Some (d' !! "revisions"))); [|reflexivity].
  rewrite !bind_run.
  destruct (get_default repo_info "revisions" (VList []) s4) as [[revisions|e] s5];
    [|reflexivity].
  destruct (negb (truthy revisions)); [reflexivity|].
  rewrite !bind_run.
  destruct (from_outcome (py_iter revisions) s5) as [[revs|e] s6]; [|reflexivity].
  apply append_revisions_acc.
Qed.

Lemma flatten_loop_acc repositories acc s :
  for_fold repositories acc flatten_one s =
  match for_fold repositories [] flatten_one s with
  | (Ret out, s') => (Ret (acc ++ out), s')
  | (Raise e, s') => (Raise e, s')
  end.
Proof.
  revert acc s. induction repositories as [|r repositories IH]; intros acc s.
  - cbn [for_fold]. unfold ret. rewrite app_nil_r. reflexivity.
  - cbn [for_fold]. rewrite !bind_run.
    rewrite (flatten_one_acc acc r s).
    destruct (flatten_one [] r s) as [[out1|e] s1]; [|reflexivity].
    rewrite (IH (acc ++ out1)), (IH out1).
    destruct (for_fold repositories [] flatten_one s1) as [[out|e] s']; [|reflexivity].
    rewrite <- app_assoc. reflexivity.
Qed.

(** X13. The input is worked off element by element, and the result is
    put together in the same order: flattening a list that is two lists
    one after the other is flattening the first and then the second and
    joining the results; if the first part raises, the whole does, in the
    same state; if the second part raises after the first returned, the
    whole raises, and the entries of the first part are lost. *)
Theorem flatten_repo_info_app repositories1 repositories2 s :
  flatten_repo_info (repositories1 ++ repositories2) s =
  match flatten_repo_info repositories1 s with
  | (Ret out1, s1) =>
      match flatten_repo_info repositories2 s1 with
      | (Ret out2, s2) => (Ret (out1 ++ out2), s2)
      | (Raise e, s2) => (Raise e, s2)
      end
  | (Raise e, s1) => (Raise e, s1)
  end.
Proof.
  unfold flatten_repo_info. rewrite for_fold_app, bind_run.
  destruct (for_fold repositories1 [] flatten_one s) as [[out1|e] s1]; [|reflexivity].
  apply flatten_loop_acc.
Qed.
(** ** From the tool list to the repositories to install *)


Lemma valid_keys_listed k :
  k ∈ VALID_KEYS ↔
  k = "name" ∨ k = "owner" ∨ k = "changeset_revision" ∨ k = "tool_panel_section_id" ∨
  k = "tool_panel_section_label" ∨ k = "tool_shed_url" ∨
  k = "install_repository_dependencies" ∨ k = "install_resolver_dependencies" ∨
  k = "install_tool_dependencies".
Proof. unfold VALID_KEYS. rewrite !elem_of_cons, elem_of_nil. tauto. Qed.




Section FlattenThenComplete.
Context (env : services).

End FlattenThenComplete.
(** *** Sample tool lists *)

Lemma plain_repo_only_valid_keys : only_valid_keys plain_repo.
Proof.
  intros k Hk. apply elem_of_dom in Hk. unfold plain_repo in Hk.
  rewrite !dom_insert_L, dom_empty_L, !elem_of_union, !elem_of_singleton,
    elem_of_empty in Hk.
  apply valid_keys_listed. tauto.
Qed.

Lemma flatten_repo_info_copies_flat_list_witness :
  ∃ out s',
    flatten_repo_info [2%positive] two_repos = (Ret out, s') ∧
    Forall2 (λ l d, heap s' !! l = Some d) out [plain_repo] ∧
    NoDup out ∧
    Forall (λ l, heap two_repos !! l = None) out.
Proof.
  apply (flatten_repo_info_copies_flat_list [2%positive] [plain_repo] two_repos).
  - repeat constructor.
  - constructor; [exact plain_repo_only_valid_keys|constructor].
Defined.

Lemma flatten_repo_info_idempotent_witness :
  ∃ out2 s2,
    flatten_repo_info [4%positive; 5%positive; 6%positive]
      (flatten_repo_info [1%positive; 2%positive] two_repos).2 = (Ret out2, s2) ∧
    Forall2 (λ l l2,
               is_Some (heap (flatten_repo_info [1%positive; 2%positive] two_repos).2 !! l) ∧
               heap s2 !! l2 =
                 heap (flatten_repo_info [1%positive; 2%positive] two_repos).2 !! l)
      [4%positive; 5%positive; 6%positive] out2 ∧
    NoDup ([4%positive; 5%positive; 6%positive] ++ out2).
Proof.
  apply (flatten_repo_info_idempotent
           [1%positive; 2%positive] [multi_revision_repo; plain_repo] two_repos).
  - repeat constructor.
  - vm_compute. reflexivity.
Defined.

Lemma flatten_repo_info_revisions_not_iterable_witness :
  ∃ s',
    flatten_repo_info [1%positive; 2%positive]
      (state_of (<[1%positive := plain_repo]>
                   {[ 2%positive := <["revisions" := VInt 5]> plain_repo ]})) =
      (Raise (Exn TypeError MsgNone), s') ∧
    objects_kept
      (state_of (<[1%positive := plain_repo]>
                   {[ 2%positive := <["revisions" := VInt 5]> plain_repo ]})) s' ∧
    trace s' = [].
Proof.
  apply (flatten_repo_info_revisions_not_iterable
           [1%positive; 2%positive]
           [plain_repo; <["revisions" := VInt 5]> plain_repo]
           (state_of (<[1%positive := plain_repo]>
                        {[ 2%positive := <["revisions" := VInt 5]> plain_repo ]}))
           (<["revisions" := VInt 5]> plain_repo) (VInt 5)).
  - repeat constructor.
  - right. left.
  - reflexivity.
  - reflexivity.
  - discriminate.
  - discriminate.
Defined.

Lemma flatten_repo_info_revisions_string_witness :
  ∃ out s',
    flatten_repo_info [1%positive]
      (state_of {[ 1%positive := <["revisions" := VStr "ab"]> plain_repo ]}) =
      (Ret out, s') ∧
    length out = 2%nat ∧
    Forall2 (λ o c, heap s' !! o =
                      Some (<["changeset_revision" := VStr (String c "")]>
                              (valid_part (<["revisions" := VStr "ab"]> plain_repo))))
      out (String.list_ascii_of_string "ab").
Proof.
  apply (flatten_repo_info_revisions_string 1%positive
           (<["revisions" := VStr "ab"]> plain_repo)
           (state_of {[ 1%positive := <["revisions" := VStr "ab"]> plain_repo ]}) "ab").
  - reflexivity.
  - reflexivity.
  - discriminate.
  - cbn [String.list_ascii_of_string].
    repeat (constructor; [vm_compute; lia|]). constructor.
Defined.

(** ** format_tool_shed_url: what it leaves alone *)

(** X15. The URLs that [format_tool_shed_url] returns unchanged are
    exactly those that start with "http" and end with "/". *)
Theorem format_tool_shed_url_fixed_points (s : string) :
  format_tool_shed_url s = s ↔
  startswith s "http" = true ∧ endswith s "/" = true.
Proof.
  split.
  - intros H. rewrite <- H. split.
    + apply format_tool_shed_url_startswith_http.
    + apply format_tool_shed_url_endswith_slash.
  - intros [Hhttp Hslash]. rewrite format_tool_shed_url_closed_form, Hhttp, Hslash.
    rewrite append_nil, append_nil_r. reflexivity.
Qed.

(** X16. A slash at the end makes no difference: a URL without one and
    the same URL with one are formatted to the same string. *)
Theorem format_tool_shed_url_trailing_slash (s : string) :
  endswith s "/" = false →
  format_tool_shed_url (s ++ "/") = format_tool_shed_url s.
Proof.
  intros Hslash.
  assert (Hends : endswith (s ++ "/") "/" = true) by apply endswith_app, endswith_refl.
  rewrite !format_tool_shed_url_closed_form, Hends, Hslash, startswith_http_slash.
  rewrite append_nil_r. reflexivity.
Qed.

Lemma format_tool_shed_url_trailing_slash_witness :
  format_tool_shed_url ("toolshed.g2.bx.psu.edu" ++ "/") =
  format_tool_shed_url "toolshed.g2.bx.psu.edu".
Proof.
  apply (format_tool_shed_url_trailing_slash "toolshed.g2.bx.psu.edu"). reflexivity.
Defined.
(** ** verify_tool_keep_history: the record and the way out *)

Local Arguments build_job_data : simpl never.

Section JobDataMore.
Context (env : services) (tool_id tool_version : value) (test_index : Z).
Context (begin_time end_time : float) (l : locals).

Let job_data := build_job_data env tool_id tool_version test_index begin_time end_time l.

(** What lines 203-213 put into the record, by local variable. *)
Lemma build_job_data_lookups :
  job_data !! "inputs" = present (tool_inputs l) ∧
  job_data !! "job" = present (job_stdio l) ∧
  job_data !! "output_problems" =
    match job_output_exceptions l with
    | Some (e :: es) => Some (VList (unicodify env <$> e :: es))
    | _ => None
    end ∧
  job_data !! "execution_problem" = unicodify env <$> tool_execution_exception l ∧
  job_data !! "status" = Some (VStr (status_of l)).
Proof.
  subst job_data. unfold build_job_data, status_of, present.
  destruct (is_None (tool_inputs l)), (is_None (job_stdio l)),
    (job_output_exceptions l) as [[|? ?]|], (tool_execution_exception l);
    cbn [negb fmap option_fmap option_map];
    repeat split; wp_dict; reflexivity.
Qed.

Lemma build_job_data_keys k : is_Some (job_data !! k) → k ∈ record_keys.
Proof.
  subst job_data. unfold build_job_data, record_keys. intros Hk.
  apply elem_of_dom in Hk. revert Hk.
  destruct (negb (is_None (tool_inputs l))), (negb (is_None (job_stdio l))),
    (job_output_exceptions l) as [[|? ?]|], (tool_execution_exception l);
    rewrite !dom_insert_L, dom_empty_L, !elem_of_union, !elem_of_singleton,
      elem_of_empty, !elem_of_cons, elem_of_nil; tauto.
Qed.

Lemma build_job_data_consistent : record_consistent job_data.
Proof.
  split; [apply build_job_data_keys|].
  destruct build_job_data_lookups as (_ & _ & Hout & Hexec & Hstatus).
  rewrite Hout, Hexec, Hstatus. unfold status_of.
  destruct (job_output_exceptions l) as [[|? ?]|], (tool_execution_exception l);
    reflexivity.
Qed.
End JobDataMore.

Section VerifyWayOut.
Context (env : services) (gi : galaxy_interactor).
Context (tool_id tool_version : value) (test_index : Z).
Context (resource_parameters : option dict) (quiet force_path_paste : bool).
Context (test_history maxseconds : value) (tool_test_dicts : option (list loc)).

(** The [finally] clause, run with the local variables [l]. *)
Lemma register_step_run register begin_time (w : state) (l : locals) :
  register_step env (Some register) tool_id tool_version test_index begin_time (w, l) =
  let job_data := build_job_data env tool_id tool_version test_index begin_time
                    (time_time env (ticks w)) l in
  (from_raised (register job_data),
   ({| heap := heap w;
       trace := trace w ++ [EvRegister job_data (register job_data)];
       ticks := S (ticks w) |}, l)).
Proof. reflexivity. Qed.

(** After a set-up that completed, the call is the [try] statement. *)
Lemma verify_tool_keep_history_try register_job_data s td history s1 :
  verify_setup env tool_id gi test_index tool_version test_history maxseconds
    tool_test_dicts s = (Ret (td, history), s1) →
  verify_tool_keep_history env tool_id gi resource_parameters register_job_data
    test_index tool_version quiet test_history force_path_paste maxseconds
    tool_test_dicts s =
  with_locals initial_locals
    (verify_try env tool_id gi (default ∅ resource_parameters) register_job_data
       test_index tool_version quiet force_path_paste maxseconds td history
       (time_time env (ticks s1)))
    {| heap := heap s1; trace := trace s1; ticks := S (ticks s1) |}.
Proof.
  intros Hsetup. unfold verify_tool_keep_history.
  rewrite bind_run, Hsetup, bind_run. reflexivity.
Qed.

(** How the [try] statement ends when a record is asked for: the record
    is built from the local variables the body left, handed over last,
    and an exception of [register_job_data] is the one that leaves. *)
Lemma verify_try_way_out register td history begin_time (w : state) :
  ∃ r s' job_data l,
    with_locals initial_locals
      (verify_try env tool_id gi (default ∅ resource_parameters) (Some register)
         test_index tool_version quiet force_path_paste maxseconds td history
         begin_time) w = (after_finally r (register job_data), s') ∧
    last (trace s') = Some (EvRegister job_data (register job_data)) ∧
    job_data = build_job_data env tool_id tool_version test_index begin_time
                 (time_time env (pred (ticks s'))) l.
Proof.
  unfold with_locals, verify_try, try_finally.
  match goal with
  | |- context [match ?body (w, initial_locals) with _ => _ end] =>
      destruct (body (w, initial_locals)) as [r [w1 l1]]
  end.
  rewrite register_step_run. cbv zeta.
  set (job_data := build_job_data env tool_id tool_version test_index begin_time
                     (time_time env (ticks w1)) l1).
  exists r, {| heap := heap w1;
               trace := trace w1 ++ [EvRegister job_data (register job_data)];
               ticks := S (ticks w1) |}, job_data, l1.
  split; [|split].
  - destruct (register job_data) as [e'|]; cbn [from_raised after_finally fst];
      [reflexivity|]. destruct r as [[]|e]; reflexivity.
  - destruct (register job_data), r; cbn [from_raised fst trace];
      apply last_snoc.
  - destruct (register job_data), r; reflexivity.
Qed.

(** X17. An exception of [register_job_data] replaces whatever the test
    ended with: after a set-up that completed, the call ends as the
    record's registration did if that raised, whether the test itself
    returned or had an exception pending. *)
Theorem verify_tool_keep_history_register_raises register s td history s1 :
  verify_setup env tool_id gi test_index tool_version test_history maxseconds
    tool_test_dicts s = (Ret (td, history), s1) →
  ∃ r s' job_data,
    verify_tool_keep_history env tool_id gi resource_parameters (Some register)
      test_index tool_version quiet test_history force_path_paste maxseconds
      tool_test_dicts s = (r, s') ∧
    last (trace s') = Some (EvRegister job_data (register job_data)) ∧
    ∀ e, register job_data = Some e → r = Raise e.
Proof.
  intros Hsetup.
  rewrite (verify_tool_keep_history_try (Some register) s td history s1 Hsetup).
  destruct (verify_try_way_out register td history (time_time env (ticks s1))
              {| heap := heap s1; trace := trace s1; ticks := S (ticks s1) |})
    as (r & s' & job_data & l & Hrun & Hlast & _).
  exists (after_finally r (register job_data)), s', job_data.
  split; [exact Hrun|]. split; [exact Hlast|].
  intros e ->. reflexivity.
Qed.

(** X18. Every record handed to [register_job_data] is consistent: its
    keys are among the nine of lines 197-214, and its [status] is
    "error" exactly when it holds an [execution_problem], "failure" when
    it holds [output_problems] and no [execution_problem], and "success"
    when it holds neither. *)
Theorem verify_tool_keep_history_record_consistent register s td history s1 :
  verify_setup env tool_id gi test_index tool_version test_history maxseconds
    tool_test_dicts s = (Ret (td, history), s1) →
  ∃ r s' job_data,
    verify_tool_keep_history env tool_id gi resource_parameters (Some register)
      test_index tool_version quiet test_history force_path_paste maxseconds
      tool_test_dicts s = (r, s') ∧
    last (trace s') = Some (EvRegister job_data (register job_data)) ∧
    record_consistent job_data.
Proof.
  intros Hsetup.
  rewrite (verify_tool_keep_history_try (Some register) s td history s1 Hsetup).
  destruct (verify_try_way_out register td history (time_time env (ticks s1))
              {| heap := heap s1; trace := trace s1; ticks := S (ticks s1) |})
    as (r & s' & job_data & l & Hrun & Hlast & ->).
  eexists _, s', _. split; [exact Hrun|]. split; [exact Hlast|].
  apply build_job_data_consistent.
Qed.
End VerifyWayOut.
(** ** verify_tool_keep_history: the test, case by case *)

Ltac body_leaf := wp_state; rewrite <- ?app_assoc; cbn [app]; reflexivity.

Section VerifyCases.
Context (env : services) (gi : galaxy_interactor).
Context (tool_id tool_version : value) (test_index : Z).
Context (resource_parameters : option dict) (quiet force_path_paste : bool).
Context (test_history maxseconds : value) (tool_test_dicts : option (list loc)).

(** The [try] statement, from what its body does. *)
Lemma verify_try_run register td history begin_time (w : state) r w1 l1 :
  (world (call_stage_data_in_history env tool_id (test_data td) history
            force_path_paste maxseconds) ;;;
   run_tool_step gi td history (default ∅ resource_parameters) ;;;
   verify_outputs_step env td history tool_id quiet) (w, initial_locals)
    = (r, (w1, l1)) →
  with_locals initial_locals
    (verify_try env tool_id gi (default ∅ resource_parameters) (Some register)
       test_index tool_version quiet force_path_paste maxseconds td history
       begin_time) w =
  let job_data := build_job_data env tool_id tool_version test_index begin_time
                    (time_time env (ticks w1)) l1 in
  (after_finally r (register job_data),
   {| heap := heap w1;
      trace := trace w1 ++ [EvRegister job_data (register job_data)];
      ticks := S (ticks w1) |}).
Proof.
  intros Hbody. unfold with_locals, verify_try, try_finally.
  rewrite Hbody, register_step_run. cbv zeta.
  destruct (register _) as [e'|]; cbn [from_raised after_finally fst];
    [reflexivity|]. destruct r as [[]|e]; reflexivity.
Qed.

(** The whole call, from what the body of its [try] statement does. *)
Lemma verify_tool_keep_history_run register s td history s1 r evs l1 :
  verify_setup env tool_id gi test_index tool_version test_history maxseconds
    tool_test_dicts s = (Ret (td, history), s1) →
  (world (call_stage_data_in_history env tool_id (test_data td) history
            force_path_paste maxseconds) ;;;
   run_tool_step gi td history (default ∅ resource_parameters) ;;;
   verify_outputs_step env td history tool_id quiet)
    ({| heap := heap s1; trace := trace s1; ticks := S (ticks s1) |}, initial_locals)
    = (r, ({| heap := heap s1; trace := trace s1 ++ evs; ticks := S (ticks s1) |},
           l1)) →
  let job_data := build_job_data env tool_id tool_version test_index
                    (time_time env (ticks s1)) (time_time env (S (ticks s1))) l1 in
  verify_tool_keep_history env tool_id gi resource_parameters (Some register)
    test_index tool_version quiet test_history force_path_paste maxseconds
    tool_test_dicts s =
  (after_finally r (register job_data),
   {| heap := heap s1;
      trace := trace s1 ++ evs ++ [EvRegister job_data (register job_data)];
      ticks := S (S (ticks s1)) |}).
Proof.
  intros Hsetup Hbody. cbv zeta.
  rewrite (verify_tool_keep_history_try env gi tool_id tool_version test_index
             resource_parameters quiet force_path_paste test_history maxseconds
             tool_test_dicts (Some register) s td history s1 Hsetup).
  rewrite (verify_try_run register td history _ _ _ _ _ Hbody).
  cbv zeta. cbn [heap trace ticks]. rewrite <- app_assoc. reflexivity.
Qed.

(** X19. A test that runs through: staging returns, the tool returns a
    response with outputs, the verification returns.  The call hands
    over a record with status "success", the inputs of the response and
    the job's output, and ends as the registration does.  Whether the
    test expected a failure plays no part. *)
Theorem verify_tool_keep_history_test_passes register s td history s1 resp stdio :
  verify_setup env tool_id gi test_index tool_version test_history maxseconds
    tool_test_dicts s = (Ret (td, history), s1) →
  stage_data_in_history env tool_id (test_data td) history force_path_paste
    maxseconds = None →
  run_tool gi td history (default ∅ resource_parameters) = Ret resp →
  truthy (outputs resp) || truthy (output_collections resp) = true →
  _verify_outputs env td history (jobs resp) tool_id (outputs resp)
    (output_collections resp) quiet = Ret stdio →
  ∃ job_data,
    verify_tool_keep_history env tool_id gi resource_parameters (Some register)
      test_index tool_version quiet test_history force_path_paste maxseconds
      tool_test_dicts s =
    (after_finally (Ret tt) (register job_data),
     {| heap := heap s1;
        trace := trace s1 ++
                   [EvStage tool_id history None;
                    EvRunTool td history (Ret resp);
                    EvVerifyOutputs td history (Ret stdio);
                    EvRegister job_data (register job_data)];
        ticks := S (S (ticks s1)) |}) ∧
    job_data !! "status" = Some (VStr "success") ∧
    job_data !! "inputs" = present (inputs resp) ∧
    job_data !! "job" = present stdio ∧
    job_data !! "execution_problem" = None ∧
    job_data !! "output_problems" = None.
Proof.
  intros Hsetup Hstage Hrun Houtputs Hverify.
  eexists. split.
  - apply (verify_tool_keep_history_run register s td history s1 (Ret tt)
             [EvStage tool_id history None; EvRunTool td history (Ret resp);
              EvVerifyOutputs td history (Ret stdio)]
             (set_job_stdio stdio (set_response resp initial_locals)) Hsetup).
    apply wp_eq. unfold run_tool_step, verify_outputs_step.
    wp_steps_verify. body_leaf.
  - match goal with
    | |- context [build_job_data ?e ?a ?b ?c ?d ?f ?l] =>
        destruct (build_job_data_lookups e a b c d f l) as (H1 & H2 & H3 & H4 & H5)
    end.
    repeat split; assumption.
Qed.

Ltac record_fields :=
  match goal with
  | |- context [build_job_data ?e ?a ?b ?c ?d ?f ?l] =>
      let H1 := fresh in let H2 := fresh in let H3 := fresh in
      let H4 := fresh in let H5 := fresh in
      destruct (build_job_data_lookups e a b c d f l) as (H1 & H2 & H3 & H4 & H5);
      repeat split; assumption
  end.


(** X21. A response without outputs: when the tool returns and both
    its outputs and its output collections are empty, the assertion of
    line 183 fails; nothing is verified, and the record that is handed
    over all the same says "success". *)
Theorem verify_tool_keep_history_no_outputs register s td history s1 resp :
  verify_setup env tool_id gi test_index tool_version test_history maxseconds
    tool_test_dicts s = (Ret (td, history), s1) →
  stage_data_in_history env tool_id (test_data td) history force_path_paste
    maxseconds = None →
  run_tool gi td history (default ∅ resource_parameters) = Ret resp →
  truthy (outputs resp) || truthy (output_collections resp) = false →
  ∃ job_data,
    verify_tool_keep_history env tool_id gi resource_parameters (Some register)
      test_index tool_version quiet test_history force_path_paste maxseconds
      tool_test_dicts s =
    (after_finally (Raise (Exn AssertionError MsgNone)) (register job_data),
     {| heap := heap s1;
        trace := trace s1 ++
                   [EvStage tool_id history None;
                    EvRunTool td history (Ret resp);
                    EvRegister job_data (register job_data)];
        ticks := S (S (ticks s1)) |}) ∧
    job_data !! "status" = Some (VStr "success") ∧
    job_data !! "inputs" = present (inputs resp) ∧
    job_data !! "job" = None ∧
    job_data !! "execution_problem" = None ∧
    job_data !! "output_problems" = None.
Proof.
  intros Hsetup Hstage Hrun Houtputs.
  eexists. split.
  - apply (verify_tool_keep_history_run register s td history s1
             (Raise (Exn AssertionError MsgNone))
             [EvStage tool_id history None; EvRunTool td history (Ret resp)]
             (set_response resp initial_locals) Hsetup).
    apply wp_eq. unfold run_tool_step, verify_outputs_step.
    wp_steps_verify. body_leaf.
  - record_fields.
Qed.

(** X22. A [JobOutputsError] of the verification is raised again, and
    the record holds what the exception carries: its [job_stdio] as the
    job's output and, when its list of output exceptions is not empty,
    their texts as [output_problems], with status "failure"; with an
    empty list the record says "success". *)
Theorem verify_tool_keep_history_job_outputs_error
    register s td history s1 resp output_exceptions stdio :
  verify_setup env tool_id gi test_index tool_version test_history maxseconds
    tool_test_dicts s = (Ret (td, history), s1) →
  stage_data_in_history env tool_id (test_data td) history force_path_paste
    maxseconds = None →
  run_tool gi td history (default ∅ resource_parameters) = Ret resp →
  truthy (outputs resp) || truthy (output_collections resp) = true →
  _verify_outputs env td history (jobs resp) tool_id (outputs resp)
    (output_collections resp) quiet = Raise (JobOutputsError output_exceptions stdio) →
  ∃ job_data,
    verify_tool_keep_history env tool_id gi resource_parameters (Some register)
      test_index tool_version quiet test_history force_path_paste maxseconds
      tool_test_dicts s =
    (after_finally (Raise (JobOutputsError output_exceptions stdio))
       (register job_data),
     {| heap := heap s1;
        trace := trace s1 ++
                   [EvStage tool_id history None;
                    EvRunTool td history (Ret resp);
                    EvVerifyOutputs td history
                      (Raise (JobOutputsError output_exceptions stdio));
                    EvRegister job_data (register job_data)];
        ticks := S (S (ticks s1)) |}) ∧
    job_data !! "status" =
      Some (VStr (match output_exceptions with [] => "success" | _ => "failure" end)) ∧
    job_data !! "output_problems" =
      match output_exceptions with
      | [] => None
      | _ => Some (VList (unicodify env <$> output_exceptions))
      end ∧
    job_data !! "job" = present stdio ∧
    job_data !! "inputs" = present (inputs resp) ∧
    job_data !! "execution_problem" = None.
Proof.
  intros Hsetup Hstage Hrun Houtputs Hverify.
  eexists. split.
  - apply (verify_tool_keep_history_run register s td history s1
             (Raise (JobOutputsError output_exceptions stdio))
             [EvStage tool_id history None; EvRunTool td history (Ret resp);
              EvVerifyOutputs td history
                (Raise (JobOutputsError output_exceptions stdio))]
             (set_job_output_exceptions (Some output_exceptions)
                (set_job_stdio stdio (set_response resp initial_locals))) Hsetup).
    apply wp_eq. unfold run_tool_step, verify_outputs_step.
    wp_steps_verify. body_leaf.
  - match goal with
    | |- context [build_job_data ?e ?a ?b ?c ?d ?f ?l] =>
        destruct (build_job_data_lookups e a b c d f l) as (H1 & H2 & H3 & H4 & H5)
    end.
    split; [|split; [|repeat split; assumption]].
    + rewrite H5. destruct output_exceptions; reflexivity.
    + rewrite H3. destruct output_exceptions; reflexivity.
Qed.

(** X23. Staging that fails: the tool is not run, the staging
    exception is raised again, and the record that is handed over says
    "success", with no inputs, no job output and no problem. *)
Theorem verify_tool_keep_history_staging_fails register s td history s1 e :
  verify_setup env tool_id gi test_index tool_version test_history maxseconds
    tool_test_dicts s = (Ret (td, history), s1) →
  stage_data_in_history env tool_id (test_data td) history force_path_paste
    maxseconds = Some e →
  ∃ job_data,
    verify_tool_keep_history env tool_id gi resource_parameters (Some register)
      test_index tool_version quiet test_history force_path_paste maxseconds
      tool_test_dicts s =
    (after_finally (Raise e) (register job_data),
     {| heap := heap s1;
        trace := trace s1 ++
                   [EvStage tool_id history (Some e);
                    EvRegister job_data (register job_data)];
        ticks := S (S (ticks s1)) |}) ∧
    job_data !! "status" = Some (VStr "success") ∧
    job_data !! "inputs" = None ∧
    job_data !! "job" = None ∧
    job_data !! "execution_problem" = None ∧
    job_data !! "output_problems" = None.
Proof.
  intros Hsetup Hstage.
  eexists. split.
  - apply (verify_tool_keep_history_run register s td history s1 (Raise e)
             [EvStage tool_id history (Some e)] initial_locals Hsetup).
    apply wp_eq. unfold run_tool_step, verify_outputs_step.
    wp_steps_verify. body_leaf.
  - record_fields.
Qed.


(** X25. An exception of the verification other than a
    [JobOutputsError] is raised again; if it is an [Exception], the
    record holds it as the one output problem, with status "failure",
    and no job output; if it is not, the record says "success". *)
Theorem verify_tool_keep_history_verification_raises
    register s td history s1 resp e :
  verify_setup env tool_id gi test_index tool_version test_history maxseconds
    tool_test_dicts s = (Ret (td, history), s1) →
  stage_data_in_history env tool_id (test_data td) history force_path_paste
    maxseconds = None →
  run_tool gi td history (default ∅ resource_parameters) = Ret resp →
  truthy (outputs resp) || truthy (output_collections resp) = true →
  _verify_outputs env td history (jobs resp) tool_id (outputs resp)
    (output_collections resp) quiet = Raise e →
  (∀ output_exceptions stdio, e ≠ JobOutputsError output_exceptions stdio) →
  ∃ job_data,
    verify_tool_keep_history env tool_id gi resource_parameters (Some register)
      test_index tool_version quiet test_history force_path_paste maxseconds
      tool_test_dicts s =
    (after_finally (Raise e) (register job_data),
     {| heap := heap s1;
        trace := trace s1 ++
                   [EvStage tool_id history None;
                    EvRunTool td history (Ret resp);
                    EvVerifyOutputs td history (Raise e);
                    EvRegister job_data (register job_data)];
        ticks := S (S (ticks s1)) |}) ∧
    job_data !! "status" =
      Some (VStr (if is_Exception e then "failure" else "success")) ∧
    job_data !! "output_problems" =
      (if is_Exception e then Some (VList [unicodify env e]) else None) ∧
    job_data !! "inputs" = present (inputs resp) ∧
    job_data !! "job" = None ∧
    job_data !! "execution_problem" = None.
Proof.
  intros Hsetup Hstage Hrun Houtputs Hverify Hother.
  destruct (is_Exception e) eqn:Hex.
  - eexists. split.
    + apply (verify_tool_keep_history_run register s td history s1 (Raise e)
               [EvStage tool_id history None; EvRunTool td history (Ret resp);
                EvVerifyOutputs td history (Raise e)]
               (set_job_output_exceptions (Some [e])
                  (set_response resp initial_locals)) Hsetup).
      apply wp_eq. unfold run_tool_step, verify_outputs_step.
      destruct e as [c m|m e_inputs|excs st]; [| |destruct (Hother excs st); reflexivity].
      all: wp_steps_verify; body_leaf.
    + record_fields.
  - eexists. split.
    + apply (verify_tool_keep_history_run register s td history s1 (Raise e)
               [EvStage tool_id history None; EvRunTool td history (Ret resp);
                EvVerifyOutputs td history (Raise e)]
               (set_response resp initial_locals) Hsetup).
      apply wp_eq. unfold run_tool_step, verify_outputs_step.
      destruct e as [c m|m e_inputs|excs st]; [|discriminate|discriminate].
      wp_steps_verify. body_leaf.
    + record_fields.
Qed.
End VerifyCases.
(** ** verify_tool_keep_history: the set-up *)

Lemma py_index_out_of_range {A} (xs : list A) i :
  i < - Z.of_nat (length xs) ∨ Z.of_nat (length xs) ≤ i → py_index xs i = None.
Proof.
  intros H. unfold py_index.
  destruct (Z.leb_spec 0 i) as [Hi|Hi].
  - apply lookup_ge_None_2. lia.
  - destruct (Z.leb_spec 0 (i + Z.of_nat (length xs))) as [Hi'|Hi']; [|reflexivity].
    lia.
Qed.

Lemma state_eta (s : state) :
  {| heap := heap s; trace := trace s; ticks := ticks s |} = s.
Proof. destruct s. reflexivity. Qed.

Ltac setup_leaf :=
  wp_state; rewrite <- ?app_assoc; cbn [app]; rewrite ?app_nil_r, ?state_eta;
  reflexivity.

Ltac wp_steps_setup :=
  repeat (cbv beta;
          lazymatch goal with
          | |- wp (setdefault _ _ _) _ _ _ => apply wp_setdefault; wp_state
          | |- _ => wp_step_verify
          end).

Section VerifySetupMore.
Context (env : services) (gi : galaxy_interactor).
Context (tool_id tool_version : value) (test_index : Z).
Context (resource_parameters : option dict) (quiet force_path_paste : bool).
Context (test_history maxseconds : value) (tool_test_dicts : option (list loc)).

(** X26. A test index outside the list of tests (the one supplied, or
    the one queried when none or an empty one is supplied; negative
    indices count from the end) ends the call with an [IndexError]:
    no description is built, no history made, nothing staged or
    registered, and the heap is as it was. *)
Theorem verify_tool_keep_history_test_index_out_of_range
    register_job_data s tests evs :
  tests_from gi tool_id tool_version tool_test_dicts tests evs →
  test_index < - Z.of_nat (length tests) ∨ Z.of_nat (length tests) ≤ test_index →
  verify_tool_keep_history env tool_id gi resource_parameters register_job_data
    test_index tool_version quiet test_history force_path_paste maxseconds
    tool_test_dicts s =
  (Raise (Exn IndexError MsgNone),
   {| heap := heap s; trace := trace s ++ evs; ticks := ticks s |}).
Proof.
  intros Hfrom Hrange. apply py_index_out_of_range in Hrange.
  apply wp_eq. unfold verify_tool_keep_history, verify_setup.
  destruct Hfrom as [(-> & Hne & ->)|([-> | ->] & Htests & ->)].
  - destruct tests as [|t tests]; [congruence|].
    wp_steps_verify. setup_leaf.
  - wp_steps_verify. setup_leaf.
  - wp_steps_verify. setup_leaf.
Qed.

(** X27. The set-up, when it gets through.  The list of tests is the
    one supplied, and the catalog of tests is queried only when none or
    an empty one is; the chosen test dictionary gets [maxseconds]
    unless it has its own, and the description is built from it as it
    then is; the history is the one supplied, and a new one is made
    only when there is none. *)
Theorem verify_setup_run s tests evs l d td history evsh :
  tests_from gi tool_id tool_version tool_test_dicts tests evs →
  py_index tests test_index = Some l →
  heap s !! l = Some d →
  ToolTestDescription env (with_maxseconds maxseconds d) = Ret td →
  _handle_def_errors env td = None →
  history_from gi test_history history evsh →
  verify_setup env tool_id gi test_index tool_version test_history maxseconds
    tool_test_dicts s =
  (Ret (td, history),
   {| heap := <[l := with_maxseconds maxseconds d]> (heap s);
      trace := trace s ++ evs ++
                 [EvToolTestDescription (with_maxseconds maxseconds d) (Ret td);
                  EvHandleDefErrors td None] ++ evsh;
      ticks := ticks s |}).
Proof.
  intros Hfrom Hidx Hd Hdescr Hdef Hhist.
  apply wp_eq. unfold verify_setup.
  assert (Hkeep : d !! "maxseconds" ≠ None → <[l := d]> (heap s) = heap s)
    by (intros _; apply insert_id, Hd).
  unfold with_maxseconds in *.
  destruct (d !! "maxseconds") as [own|] eqn:Hown.
  - rewrite Hkeep by discriminate.
    destruct Hfrom as [(-> & Hne & ->)|([-> | ->] & Htests & ->)];
      [destruct tests as [|t tests]; [congruence|]| |];
      destruct Hhist as [(Hnone & -> & ->)|(Hnone & Hnew & ->)];
      wp_steps_setup; setup_leaf.
  - destruct Hfrom as [(-> & Hne & ->)|([-> | ->] & Htests & ->)];
      [destruct tests as [|t tests]; [congruence|]| |];
      destruct Hhist as [(Hnone & -> & ->)|(Hnone & Hnew & ->)];
      wp_steps_setup; setup_leaf.
Qed.

(** X28. A set-up that fails ends the call there: the exception is the
    call's, the clock has not been read, and the calls made are
    set-up calls only, so nothing was staged, run or registered. *)
Theorem verify_tool_keep_history_setup_raises register_job_data s e s1 :
  verify_setup env tool_id gi test_index tool_version test_history maxseconds
    tool_test_dicts s = (Raise e, s1) →
  verify_tool_keep_history env tool_id gi resource_parameters register_job_data
    test_index tool_version quiet test_history force_path_paste maxseconds
    tool_test_dicts s = (Raise e, s1) ∧
  ticks s1 = ticks s ∧
  ∃ evs, trace s1 = trace s ++ evs ∧ forallb is_setup_event evs = true ∧
         registrations evs = [].
Proof.
  intros Hsetup. split.
  - unfold verify_tool_keep_history. rewrite bind_run, Hsetup. reflexivity.
  - pose proof (wp_run _ _ _ _ _ _ (wp_verify_setup env gi tool_id tool_version
                  test_index test_history maxseconds tool_test_dicts s) Hsetup)
      as (evs0 & (Htrace & Hevs & Hticks & _) & _).
    split; [exact Hticks|]. exists evs0. split; [exact Htrace|].
    split; [exact Hevs|]. apply forallb_setup_no_registrations, Hevs.
Qed.
End VerifySetupMore.
(** *** Sample tests *)

Lemma verify_tool_keep_history_register_raises_witness :
  let env := failing_stage_services in
  let gi := sample_interactor [1%positive] in
  ∃ r s' job_data,
    verify_tool_keep_history env (VStr "bwa") gi None (Some reject_job_data) 0 VNone
      false VNone false (VInt DEFAULT_TOOL_TEST_WAIT) None one_test = (r, s') ∧
    last (trace s') = Some (EvRegister job_data (reject_job_data job_data)) ∧
    ∀ e, reject_job_data job_data = Some e → r = Raise e.
Proof.
  intros env gi.
  apply (verify_tool_keep_history_register_raises env gi (VStr "bwa") VNone 0 None
           false false VNone (VInt DEFAULT_TOOL_TEST_WAIT) None reject_job_data one_test
           {| expect_failure := false; test_data := VNone |} (VStr "history")
           (verify_setup env (VStr "bwa") gi 0 VNone VNone (VInt DEFAULT_TOOL_TEST_WAIT)
              None one_test).2).
  vm_compute. reflexivity.
Defined.

Lemma verify_tool_keep_history_record_consistent_witness :
  let env := output_problem_services in
  let gi := sample_interactor [1%positive] in
  ∃ r s' job_data,
    verify_tool_keep_history env (VStr "bwa") gi None (Some accept_job_data) 0 VNone
      false VNone false (VInt DEFAULT_TOOL_TEST_WAIT) None one_test = (r, s') ∧
    last (trace s') = Some (EvRegister job_data (accept_job_data job_data)) ∧
    record_consistent job_data.
Proof.
  intros env gi.
  apply (verify_tool_keep_history_record_consistent env gi (VStr "bwa") VNone 0 None
           false false VNone (VInt DEFAULT_TOOL_TEST_WAIT) None accept_job_data one_test
           {| expect_failure := false; test_data := VNone |} (VStr "history")
           (verify_setup env (VStr "bwa") gi 0 VNone VNone (VInt DEFAULT_TOOL_TEST_WAIT)
              None one_test).2).
  vm_compute. reflexivity.
Defined.

Lemma verify_tool_keep_history_test_passes_witness :
  let env := expected_failure_services in
  let gi := sample_interactor [1%positive] in
  let td := {| expect_failure := true; test_data := VNone |} in
  let s1 := (verify_setup env (VStr "bwa") gi 0 VNone VNone
               (VInt DEFAULT_TOOL_TEST_WAIT) None one_test).2 in
  ∃ job_data,
    verify_tool_keep_history env (VStr "bwa") gi None (Some accept_job_data) 0 VNone
      false VNone false (VInt DEFAULT_TOOL_TEST_WAIT) None one_test =
    (after_finally (Ret tt) (accept_job_data job_data),
     {| heap := heap s1;
        trace := trace s1 ++
                   [EvStage (VStr "bwa") (VStr "history") None;
                    EvRunTool td (VStr "history") (Ret sample_response);
                    EvVerifyOutputs td (VStr "history") (Ret (VStr "stdout"));
                    EvRegister job_data (accept_job_data job_data)];
        ticks := S (S (ticks s1)) |}) ∧
    job_data !! "status" = Some (VStr "success") ∧
    job_data !! "inputs" = present (inputs sample_response) ∧
    job_data !! "job" = present (VStr "stdout") ∧
    job_data !! "execution_problem" = None ∧
    job_data !! "output_problems" = None.
Proof.
  intros env gi td s1.
  refine (verify_tool_keep_history_test_passes env gi (VStr "bwa") VNone 0 None
            false false VNone (VInt DEFAULT_TOOL_TEST_WAIT) None accept_job_data one_test
            td (VStr "history") s1 sample_response (VStr "stdout") _ _ _ _ _).
  - vm_compute. reflexivity.
  - reflexivity.
  - reflexivity.
  - reflexivity.
  - reflexivity.
Defined.


Lemma verify_tool_keep_history_no_outputs_witness :
  let env := sample_services (Ret []) in
  let gi := no_output_interactor [1%positive] in
  let td := {| expect_failure := false; test_data := VNone |} in
  let s1 := (verify_setup env (VStr "bwa") gi 0 VNone VNone
               (VInt DEFAULT_TOOL_TEST_WAIT) None one_test).2 in
  ∃ job_data,
    verify_tool_keep_history env (VStr "bwa") gi None (Some accept_job_data) 0 VNone
      false VNone false (VInt DEFAULT_TOOL_TEST_WAIT) None one_test =
    (after_finally (Raise (Exn AssertionError MsgNone)) (accept_job_data job_data),
     {| heap := heap s1;
        trace := trace s1 ++
                   [EvStage (VStr "bwa") (VStr "history") None;
                    EvRunTool td (VStr "history") (Ret empty_response);
                    EvRegister job_data (accept_job_data job_data)];
        ticks := S (S (ticks s1)) |}) ∧
    job_data !! "status" = Some (VStr "success") ∧
    job_data !! "inputs" = present (inputs empty_response) ∧
    job_data !! "job" = None ∧
    job_data !! "execution_problem" = None ∧
    job_data !! "output_problems" = None.
Proof.
  intros env gi td s1.
  refine (verify_tool_keep_history_no_outputs env gi (VStr "bwa") VNone 0 None
            false false VNone (VInt DEFAULT_TOOL_TEST_WAIT) None accept_job_data one_test
            td (VStr "history") s1 empty_response _ _ _ _).
  - vm_compute. reflexivity.
  - reflexivity.
  - reflexivity.
  - reflexivity.
Defined.

Lemma verify_tool_keep_history_job_outputs_error_witness :
  let env := output_problem_services in
  let gi := sample_interactor [1%positive] in
  let td := {| expect_failure := false; test_data := VNone |} in
  let problems := [Exn AssertionError (MsgText "output differs")] in
  let s1 := (verify_setup env (VStr "bwa") gi 0 VNone VNone
               (VInt DEFAULT_TOOL_TEST_WAIT) None one_test).2 in
  ∃ job_data,
    verify_tool_keep_history env (VStr "bwa") gi None (Some accept_job_data) 0 VNone
      false VNone false (VInt DEFAULT_TOOL_TEST_WAIT) None one_test =
    (after_finally (Raise (JobOutputsError problems (VStr "stdout")))
       (accept_job_data job_data),
     {| heap := heap s1;
        trace := trace s1 ++
                   [EvStage (VStr "bwa") (VStr "history") None;
                    EvRunTool td (VStr "history") (Ret sample_response);
                    EvVerifyOutputs td (VStr "history")
                      (Raise (JobOutputsError problems (VStr "stdout")));
                    EvRegister job_data (accept_job_data job_data)];
        ticks := S (S (ticks s1)) |}) ∧
    job_data !! "status" = Some (VStr "failure") ∧
    job_data !! "output_problems" = Some (VList (unicodify env <$> problems)) ∧
    job_data !! "job" = present (VStr "stdout") ∧
    job_data !! "inputs" = present (inputs sample_response) ∧
    job_data !! "execution_problem" = None.
Proof.
  intros env gi td problems s1.
  refine (verify_tool_keep_history_job_outputs_error env gi (VStr "bwa") VNone 0 None
            false false VNone (VInt DEFAULT_TOOL_TEST_WAIT) None accept_job_data one_test
            td (VStr "history") s1 sample_response problems (VStr "stdout") _ _ _ _ _).
  - vm_compute. reflexivity.
  - reflexivity.
  - reflexivity.
  - reflexivity.
  - reflexivity.
Defined.

Lemma verify_tool_keep_history_test_index_out_of_range_witness :
  verify_tool_keep_history (sample_services (Ret [])) (VStr "bwa")
    (sample_interactor [1%positive]) None (Some accept_job_data) (-2) VNone
    false VNone false (VInt DEFAULT_TOOL_TEST_WAIT) (Some []) one_test =
  (Raise (Exn IndexError MsgNone),
   {| heap := heap one_test;
      trace := trace one_test ++ [EvGetToolTests (VStr "bwa") VNone (Ret [1%positive])];
      ticks := ticks one_test |}).
Proof.
  refine (verify_tool_keep_history_test_index_out_of_range (sample_services (Ret []))
            (sample_interactor [1%positive]) (VStr "bwa") VNone (-2) None false false
            VNone (VInt DEFAULT_TOOL_TEST_WAIT) (Some []) (Some accept_job_data) one_test
            [1%positive] [EvGetToolTests (VStr "bwa") VNone (Ret [1%positive])] _ _).
  - right. split; [right; reflexivity|]. split; reflexivity.
  - left. cbn. lia.
Defined.

Lemma verify_setup_run_witness :
  let env := sample_services (Ret []) in
  let gi := sample_interactor [] in
  let d := with_maxseconds (VInt DEFAULT_TOOL_TEST_WAIT) sample_test in
  let td := {| expect_failure := false; test_data := VNone |} in
  verify_setup env (VStr "bwa") gi (-1) VNone (VStr "kept")
    (VInt DEFAULT_TOOL_TEST_WAIT) (Some [1%positive]) one_test =
  (Ret (td, VStr "kept"),
   {| heap := <[1%positive := d]> (heap one_test);
      trace := trace one_test ++ [] ++
                 [EvToolTestDescription d (Ret td); EvHandleDefErrors td None] ++ [];
      ticks := ticks one_test |}).
Proof.
  intros env gi d td.
  refine (verify_setup_run env gi (VStr "bwa") VNone (-1) (VStr "kept")
            (VInt DEFAULT_TOOL_TEST_WAIT) (Some [1%positive]) one_test [1%positive] []
            1%positive sample_test td (VStr "kept") [] _ _ _ _ _ _).
  - left. split; [reflexivity|]. split; [discriminate|reflexivity].
  - reflexivity.
  - reflexivity.
  - reflexivity.
  - reflexivity.
  - left. split; [reflexivity|]. split; reflexivity.
Defined.

Lemma verify_tool_keep_history_setup_raises_witness :
  let env := definition_error_services in
  let gi := sample_interactor [1%positive] in
  let e := Exn OtherException (MsgText "Test parse failure") in
  let s1 := (verify_setup env (VStr "bwa") gi 0 VNone VNone
               (VInt DEFAULT_TOOL_TEST_WAIT) None one_test).2 in
  verify_tool_keep_history env (VStr "bwa") gi None (Some accept_job_data) 0 VNone
    false VNone false (VInt DEFAULT_TOOL_TEST_WAIT) None one_test = (Raise e, s1) ∧
  ticks s1 = ticks one_test ∧
  ∃ evs, trace s1 = trace one_test ++ evs ∧ forallb is_setup_event evs = true ∧
         registrations evs = [].
Proof.
  intros env gi e s1.
  refine (verify_tool_keep_history_setup_raises env gi (VStr "bwa") VNone 0 None
            false false VNone (VInt DEFAULT_TOOL_TEST_WAIT) None (Some accept_job_data)
            one_test e s1 _).
  vm_compute. reflexivity.
Defined.

Lemma verify_tool_keep_history_staging_fails_witness :
  let env := failing_stage_services in
  let gi := sample_interactor [1%positive] in
  let e := Exn OtherException (MsgText "upload failed") in
  let s1 := (verify_setup env (VStr "bwa") gi 0 VNone VNone
               (VInt DEFAULT_TOOL_TEST_WAIT) None one_test).2 in
  ∃ job_data,
    verify_tool_keep_history env (VStr "bwa") gi None (Some accept_job_data) 0 VNone
      false VNone false (VInt DEFAULT_TOOL_TEST_WAIT) None one_test =
    (after_finally (Raise e) (accept_job_data job_data),
     {| heap := heap s1;
        trace := trace s1 ++
                   [EvStage (VStr "bwa") (VStr "history") (Some e);
                    EvRegister job_data (accept_job_data job_data)];
        ticks := S (S (ticks s1)) |}) ∧
    job_data !! "status" = Some (VStr "success") ∧
    job_data !! "inputs" = None ∧
    job_data !! "job" = None ∧
    job_data !! "execution_problem" = None ∧
    job_data !! "output_problems" = None.
Proof.
  intros env gi e s1.
  refine (verify_tool_keep_history_staging_fails env gi (VStr "bwa") VNone 0 None
            false false VNone (VInt DEFAULT_TOOL_TEST_WAIT) None accept_job_data one_test
            {| expect_failure := false; test_data := VNone |} (VStr "history") s1 e _ _).
  - vm_compute. reflexivity.
  - reflexivity.
Defined.


Lemma verify_tool_keep_history_verification_raises_witness :
  let env := broken_verification_services in
  let gi := sample_interactor [1%positive] in
  let td := {| expect_failure := false; test_data := VNone |} in
  let e := Exn OtherException (MsgText "connection lost") in
  let s1 := (verify_setup env (VStr "bwa") gi 0 VNone VNone
               (VInt DEFAULT_TOOL_TEST_WAIT) None one_test).2 in
  ∃ job_data,
    verify_tool_keep_history env (VStr "bwa") gi None (Some accept_job_data) 0 VNone
      false VNone false (VInt DEFAULT_TOOL_TEST_WAIT) None one_test =
    (after_finally (Raise e) (accept_job_data job_data),
     {| heap := heap s1;
        trace := trace s1 ++
                   [EvStage (VStr "bwa") (VStr "history") None;
                    EvRunTool td (VStr "history") (Ret sample_response);
                    EvVerifyOutputs td (VStr "history") (Raise e);
                    EvRegister job_data (accept_job_data job_data)];
        ticks := S (S (ticks s1)) |}) ∧
    job_data !! "status" =
      Some (VStr (if is_Exception e then "failure" else "success")) ∧
    job_data !! "output_problems" =
      (if is_Exception e then Some (VList [unicodify env e]) else None) ∧
    job_data !! "inputs" = present (inputs sample_response) ∧
    job_data !! "job" = None ∧
    job_data !! "execution_problem" = None.
Proof.
  intros env gi td e s1.
  refine (verify_tool_keep_history_verification_raises env gi (VStr "bwa") VNone 0 None
            false false VNone (VInt DEFAULT_TOOL_TEST_WAIT) None accept_job_data one_test
            td (VStr "history") s1 sample_response e _ _ _ _ _ _).
  - vm_compute. reflexivity.
  - reflexivity.
  - reflexivity.
  - reflexivity.
  - reflexivity.
  - intros output_exceptions stdio. discriminate.
Defined.
